(** * MutiCipher: the HiSilicon Advanced-CA multi-block cipher engine

    A shallow embedding of the driver that starts at the second
    SPDX header of [drivers/clk/hisilicon/crg-hi3798.c] ("MutiCipher -
    cipher for multiple blocks (i.e. DMA)"), and the properties of its
    descriptor builder, channel state machine, channel allocator,
    interrupt/sweeper pair, key validation and probe.

    Conventions of the embedding.
    - C integers are [Z]; every place where the C code can wrap around
      (unsigned arithmetic, 16-bit register accesses, little-endian
      stores) is written out with [u32], [u16] and [u8].
    - The memory-mapped register window is a store [gmap Z Z] from byte
      offsets to 32-bit words: a read returns what was last written, by
      the driver or, between two driver calls, by the device.  An offset
      never written reads 0.
    - Kernel memory reached through scatterlists is a byte store
      [gmap Z Z]; source and destination lists that name the same
      addresses alias, as they do for in-place requests.
    - The transform context is shared by all requests of a transform and
      is read through the pointer [rc_tfm] at each use, so it lives in a
      store of its own ([tfms]).
    - The build modelled is the one without [DEBUG]: the erase code under
      [#ifndef DEBUG] is present and [dev_dbg] prints nothing. *)

From stdpp Require Import base list gmap.
From Stdlib Require Import ZArith Lia Bool.
Open Scope Z_scope.

(** ** Machine integers *)

Definition u8 (x : Z) : Z := x mod 2 ^ 8.
Definition u16 (x : Z) : Z := x mod 2 ^ 16.
Definition u32 (x : Z) : Z := x mod 2 ^ 32.

(** [BIT(n)] and [GENMASK(h, l)] of [linux/bits.h]. *)
Definition BIT (n : Z) : Z := Z.shiftl 1 n.
Definition GENMASK (h l : Z) : Z := Z.shiftl (Z.ones (h - l + 1)) l.

(** [~mask] on a 32-bit word. *)
Definition not32 (mask : Z) : Z := Z.lxor (Z.ones 32) mask.

(** [ALIGN(x, a)] of [linux/align.h], for a power of two [a], in 32 bits. *)
Definition ALIGN (x a : Z) : Z :=
  Z.land (u32 (x + (a - 1))) (not32 (u32 (a - 1))).

Definition min3 (a b c : Z) : Z := Z.min (Z.min a b) c.

(** Error numbers of [asm-generic/errno-base.h] and [errno.h]. *)
Module Errno.
Definition EIO : Z := 5.
Definition ENOMEM : Z := 12.
Definition EFAULT : Z := 14.
Definition EBUSY : Z := 16.
Definition ENODEV : Z := 19.
Definition EINVAL : Z := 22.
Definition EINPROGRESS : Z := 115.
End Errno.
Import Errno.

(** ** Hardware definitions *)

Definition MUC_CHAN0_DATA_OUT0 : Z := 0x00.
Definition MUC_CHANn_IV_OUT0 (n : Z) : Z := 0x10 + 0x10 * n.
Definition MUC_CHANn_KEY0 (n : Z) : Z := 0x90 + 0x20 * n.

Definition MUC_SEC_CHAN_CFG : Z := 0x824.
Definition MUC_SEC_CHANn_BIT (n : Z) : Z := BIT n.

Definition MUC_CHAN0_CTRL : Z := 0x1000.
Definition MUC_CHAN0_IV_IN0 : Z := 0x1004.
Definition MUC_CHAN0_DATA_IN0 : Z := 0x1014.

Definition MUC_CHANn_IN_BUF_NUM (n : Z) : Z := 0x1000 + 0x80 * n + 0x00.
Definition MUC_CHANn_IN_BUF_CNT (n : Z) : Z := 0x1000 + 0x80 * n + 0x04.
Definition MUC_CHANn_IN_EMPTY_CNT (n : Z) : Z := 0x1000 + 0x80 * n + 0x08.
Definition MUC_CHANn_INT_IN_CNT_CFG (n : Z) : Z := 0x1000 + 0x80 * n + 0x0c.
Definition MUC_CHANn_CTRL (n : Z) : Z := 0x1000 + 0x80 * n + 0x10.
Definition MUC_CHANn_SRC_LST_ADDR (n : Z) : Z := 0x1000 + 0x80 * n + 0x14.
Definition MUC_CHANn_IN_AGE_TIMER (n : Z) : Z := 0x1000 + 0x80 * n + 0x18.
Definition MUC_CHANn_IN_AGE_CNT (n : Z) : Z := 0x1000 + 0x80 * n + 0x1c.
Definition MUC_CHANn_SRC_LST_PTR (n : Z) : Z := 0x1000 + 0x80 * n + 0x20.
Definition MUC_CHANn_SRC_ADDR (n : Z) : Z := 0x1000 + 0x80 * n + 0x24.
Definition MUC_CHANn_SRC_LENGTH (n : Z) : Z := 0x1000 + 0x80 * n + 0x28.
Definition MUC_CHANn_IN_LEFT (n : Z) : Z := 0x1000 + 0x80 * n + 0x2c.

Definition MUC_CHANn_OUT_BUF_NUM (n : Z) : Z := 0x1000 + 0x80 * n + 0x3c.
Definition MUC_CHANn_OUT_BUF_CNT (n : Z) : Z := 0x1000 + 0x80 * n + 0x40.
Definition MUC_CHANn_OUT_FULL_CNT (n : Z) : Z := 0x1000 + 0x80 * n + 0x44.
Definition MUC_CHANn_INT_OUT_CNT_CFG (n : Z) : Z := 0x1000 + 0x80 * n + 0x48.
Definition MUC_CHANn_DST_LST_ADDR (n : Z) : Z := 0x1000 + 0x80 * n + 0x4c.
Definition MUC_CHANn_OUT_AGE_TIMER (n : Z) : Z := 0x1000 + 0x80 * n + 0x50.
Definition MUC_CHANn_OUT_AGE_CNT (n : Z) : Z := 0x1000 + 0x80 * n + 0x54.
Definition MUC_CHANn_DST_LST_PTR (n : Z) : Z := 0x1000 + 0x80 * n + 0x58.
Definition MUC_CHANn_DST_ADDR (n : Z) : Z := 0x1000 + 0x80 * n + 0x5c.
Definition MUC_CHANn_DST_LENGTH (n : Z) : Z := 0x1000 + 0x80 * n + 0x60.
Definition MUC_CHANn_OUT_LEFT (n : Z) : Z := 0x1000 + 0x80 * n + 0x64.

(** Fields of the [MUC_CHAN{0,n}_CTRL] register. *)
Definition MUC_CTRL_DECRYPT : Z := BIT 0.
Definition MUC_CTRL_MODE : Z := GENMASK 3 1.
Definition MUC_MODE_ECB : Z := 0.
Definition MUC_MODE_CBC : Z := 1.
Definition MUC_MODE_CFB : Z := 2.
Definition MUC_MODE_OFB : Z := 3.
Definition MUC_MODE_CTR : Z := 4.
Definition MUC_CTRL_ALG : Z := GENMASK 5 4.
Definition MUC_ALG_DES : Z := 0.
Definition MUC_ALG_DES3_EDE : Z := 1.
Definition MUC_ALG_AES : Z := 2.
Definition MUC_CTRL_WIDTH : Z := GENMASK 7 6.
Definition MUC_WIDTH_BLOCK : Z := 0.
Definition MUC_CTRL_CHAN0_IV_SET : Z := BIT 8.
Definition MUC_CTRL_KEY : Z := GENMASK 10 9.
Definition MUC_KEY_AES_128B : Z := 0.
Definition MUC_KEY_AES_192B : Z := 1.
Definition MUC_KEY_AES_256B : Z := 2.
Definition MUC_KEY_DES : Z := 0.
Definition MUC_KEY_DES3_EDE_3KEY : Z := 0.
Definition MUC_KEY_DES3_EDE_2KEY : Z := 3.
Definition MUC_CTRL_KEY_FROM_MKL : Z := BIT 13.
Definition MUC_CTRL_KEY_ID : Z := GENMASK 16 14.

Definition MUC_BUF_NUM_MAX : Z := GENMASK 15 0.

Definition MUC_INT_STATUS : Z := 0x1400.
Definition MUC_INT_CHANn_IN_BUF (n : Z) : Z := BIT n.
Definition MUC_INT_CHAN0_DATA_DISPOSE : Z := BIT 8.
Definition MUC_INT_CHANn_OUT_BUF (n : Z) : Z := BIT (8 + n).
Definition MUC_INT_CFG : Z := 0x1404.
Definition MUC_INT_CFG_SEC_EN : Z := BIT 30.
Definition MUC_INT_CFG_NSEC_EN : Z := BIT 31.
Definition MUC_INT_RAW : Z := 0x1408.
Definition MUC_RST_STATUS : Z := 0x140c.
Definition MUC_STATE_VALID : Z := BIT 0.
Definition MUC_CHAN0_CFG : Z := 0x1410.
Definition MUC_CHAN0_START : Z := BIT 0.
Definition MUC_CHAN0_BUSY : Z := BIT 1.
Definition MUC_SRC_ADDR_SMMU_BYPASS : Z := 0x1418.
Definition MUC_DST_ADDR_SMMU_BYPASS : Z := 0x141c.

Definition MUC_CHAN_PKG1 : Z := 0.
Definition MUC_CHAN_PKGn_MIN : Z := 1.
Definition MUC_CHAN_NUM : Z := 8.

Definition MUC_IV_SIZE : Z := 16.
Definition MUC_BLOCK_SIZE : Z := 16.
Definition MUC_KEY_SIZE : Z := 32.

(** One ring entry, [struct hica_muc_buf]; the four fields are stored as
    little-endian 32-bit words. *)
Record hica_muc_buf := mk_buf {
  b_addr : Z;
  b_flags : Z;
  b_len : Z;
  b_iv_addr : Z
}.

Definition MUC_BUF_FLAG_SET_IV : Z := BIT 21.
Definition MUC_BUF_FLAG_END_OF_LIST : Z := BIT 22.
Definition MUC_BUF_LEN_MAX : Z := 0xffff0.

Definition cpu_to_le32 (x : Z) : Z := u32 x.

(** ** Driver definitions *)

Definition MUC_BUF_NUM : Z := 15.

(** Key sizes of [crypto/aes.h] and [crypto/des.h]. *)
Definition AES_KEYSIZE_128 : Z := 16.
Definition AES_KEYSIZE_192 : Z := 24.
Definition AES_KEYSIZE_256 : Z := 32.
Definition DES_KEY_SIZE : Z := 8.
Definition DES3_EDE_KEY_SIZE : Z := 24.

Record hica_muc_ctrl_key_map := mk_key_map {
  km_alg : Z;
  km_key : Z;
  km_keylen : Z
}.

(** The table ends with the all-zero entry [{ }]. *)
Definition hica_muc_ctrl_key_maps : list hica_muc_ctrl_key_map :=
  [ mk_key_map MUC_ALG_AES MUC_KEY_AES_256B AES_KEYSIZE_256;
    mk_key_map MUC_ALG_AES MUC_KEY_AES_192B AES_KEYSIZE_192;
    mk_key_map MUC_ALG_AES MUC_KEY_AES_128B AES_KEYSIZE_128;
    mk_key_map MUC_ALG_DES MUC_KEY_DES DES_KEY_SIZE;
    mk_key_map MUC_ALG_DES3_EDE MUC_KEY_DES3_EDE_3KEY DES3_EDE_KEY_SIZE;
    mk_key_map MUC_ALG_DES3_EDE MUC_KEY_DES3_EDE_2KEY (2 * DES_KEY_SIZE);
    mk_key_map 0 0 0 ].

(** [struct hica_muc_ctrl]: bit-fields of 3, 2, 2 and 2 bits. *)
Record hica_muc_ctrl := mk_ctrl {
  c_mode : Z;
  c_alg : Z;
  c_width : Z;
  c_key : Z
}.

(** [struct hica_muc_tfm_ctx]; [priv] is the one device of the model. *)
Record hica_muc_tfm_ctx := mk_tfm_ctx {
  t_ctrl : hica_muc_ctrl;
  t_ivsize : Z;
  t_chunksize : Z;
  t_keysize : Z;
  t_key : list Z
}.

(** A scatterlist entry: where the CPU sees the buffer ([sg_virt]), where
    the device sees it ([sg_dma_address]) and its length.  A scatterlist
    is the list of its entries; [NULL] and the end of the chain are [[]],
    [sg_next] is the tail. *)
Record scatterlist := mk_sg {
  sg_virt : Z;
  sg_dma_address : Z;
  sg_length : Z
}.

#[global] Instance scatterlist_eq_dec : EqDecision scatterlist.
Proof. solve_decision. Defined.

Record sg_iter := mk_iter {
  it_sg : list scatterlist;
  it_sg_offset : Z;
  it_offset : Z
}.

(** [struct hica_muc_req_ctx]; the two union members are laid side by
    side: [rc_offset] is the slow channel's, the rest the ring
    channels'.  [rc_tfm] is the pointer to the transform context. *)
Record hica_muc_req_ctx := mk_req_ctx {
  rc_tfm : nat;
  rc_decrypting : bool;
  rc_offset : Z;
  rc_runlen : Z;
  rc_eof : bool;
  rc_src_nents : Z;
  rc_dst_nents : Z;
  rc_src : sg_iter;
  rc_dst : sg_iter
}.

(** [struct skcipher_request] with its trailing request context.
    [rq_tfm] is [crypto_skcipher_reqtfm(req)]. *)
Record skcipher_request := mk_req {
  rq_tfm : nat;
  rq_src : list scatterlist;
  rq_dst : list scatterlist;
  rq_cryptlen : Z;
  rq_iv : list Z;
  rq_ctx : hica_muc_req_ctx
}.

(** The channel's request slot: [NULL] is idle, an [ERR_PTR] is invalid
    or being processed, anything else is the request the channel is busy
    with. *)
Inductive req_ptr :=
  | ReqNull
  | ReqErr (e : Z)
  | ReqPtr (r : skcipher_request).


(** [struct hica_muc_chan], union members side by side as above.  The
    rings [ch_src] and [ch_dst] and the scratch [ch_iv] are the contents
    of the DMA-coherent block allocated by [hica_muc_chan_init]. *)
Record hica_muc_chan := mk_chan {
  ch_id : Z;
  ch_dirty : bool;
  ch_req : req_ptr;
  ch_inout : list Z;
  ch_inout_size : Z;
  ch_src : list hica_muc_buf;
  ch_dst : list hica_muc_buf;
  ch_iv : list Z;
  ch_src_addr : Z;
  ch_dst_addr : Z;
  ch_iv_addr : Z;
  ch_pad_addr : Z;
  ch_src_emit_n : Z;
  ch_dst_emit_n : Z;
  ch_list_size : Z
}.

(** ** Register and buffer access *)

Definition readl (regs : gmap Z Z) (a : Z) : Z := default 0 (regs !! a).

Definition writel (v a : Z) (regs : gmap Z Z) : gmap Z Z :=
  <[a := u32 v]> regs.

(** 16-bit accesses touch the low half of the little-endian word. *)
Definition readw (regs : gmap Z Z) (a : Z) : Z := u16 (readl regs a).

Definition writew (v a : Z) (regs : gmap Z Z) : gmap Z Z :=
  <[a := Z.lor (Z.land (readl regs a) 0xffff0000) (u16 v)]> regs.

(** The offsets [0, 4, 8, ...] visited by
    [for (i = 0; i < len; i += sizeof(u32))]. *)
Definition word_offsets (len : Z) : list Z :=
  (fun k : nat => 4 * Z.of_nat k) <$> seq 0 (Z.to_nat ((len + 3) / 4)).

Definition byte_at (buf : list Z) (i : Z) : Z :=
  default 0 (buf !! Z.to_nat i).

(** [*(const u32 * ) (buf + i)] and its inverse, little-endian. *)
Definition le32_load (buf : list Z) (i : Z) : Z :=
  byte_at buf i + 2 ^ 8 * byte_at buf (i + 1) +
  2 ^ 16 * byte_at buf (i + 2) + 2 ^ 24 * byte_at buf (i + 3).

Definition le32_bytes (w : Z) : list Z :=
  [u8 w; u8 (w / 2 ^ 8); u8 (w / 2 ^ 16); u8 (w / 2 ^ 24)].

(** Overwrite [buf] from byte offset [off] with [bytes]; a store past the
    end of the buffer, which would corrupt memory in C, is cut off. *)
Definition store_bytes (buf : list Z) (off : Z) (bytes : list Z) : list Z :=
  list_inserts (Z.to_nat off) bytes buf.

(** The bytes that [hica_readl_seq] stores at [buf]. *)
Definition hica_readl_seq (regs : gmap Z Z) (addr len : Z) : list Z :=
  word_offsets len ≫= (fun i => le32_bytes (readl regs (addr + i))).

(** [hica_writel_seq(buf + off, addr, len)]. *)
Definition hica_writel_seq (buf : list Z) (off addr len : Z)
    (regs : gmap Z Z) : gmap Z Z :=
  foldl (fun r i => writel (le32_load buf (off + i)) (addr + i) r)
        regs (word_offsets len).

Definition hica_setl_seq (value addr len : Z) (regs : gmap Z Z) : gmap Z Z :=
  foldl (fun r i => writel value (addr + i) r) regs (word_offsets len).

(** [memzero_explicit(buf, n)] on a buffer of at least [n] bytes. *)
Definition memzero (buf : list Z) (n : Z) : list Z :=
  store_bytes buf 0 (replicate (Z.to_nat n) 0).

(** ** Scatterlist cursor *)

Definition sg_iter_valid (iter : sg_iter) : bool :=
  match it_sg iter with
  | [] => false
  | s :: _ => it_sg_offset iter <? sg_length s
  end.

(** Both accessors dereference [iter->sg]; the code calls them only
    after [sg_iter_valid]. *)
Definition sg_iter_len (iter : sg_iter) : Z :=
  match it_sg iter with
  | [] => 0
  | s :: _ => u32 (sg_length s - it_sg_offset iter)
  end.

Definition sg_iter_dma_address (iter : sg_iter) : Z :=
  match it_sg iter with
  | [] => 0
  | s :: _ => u32 (sg_dma_address s + it_sg_offset iter)
  end.

(** The [while] loop of [sg_iter_normalize]; the subtraction is guarded
    by the loop condition and cannot wrap. *)
Fixpoint sg_skip (sg : list scatterlist) (sg_offset : Z)
    : list scatterlist * Z :=
  match sg with
  | [] => ([], sg_offset)
  | s :: rest =>
      if sg_offset >=? sg_length s
      then sg_skip rest (sg_offset - sg_length s)
      else (sg, sg_offset)
  end.

Definition sg_iter_normalize (iter : sg_iter) : sg_iter :=
  let '(sg, sg_offset) := sg_skip (it_sg iter) (it_sg_offset iter) in
  mk_iter sg sg_offset (it_offset iter).

Definition sg_iter_inc (iter : sg_iter) (len : Z) : sg_iter :=
  sg_iter_normalize
    (mk_iter (it_sg iter) (u32 (it_sg_offset iter + len))
             (u32 (it_offset iter + len))).

Definition sg_iter_init (sg : list scatterlist) : sg_iter := mk_iter sg 0 0.

(** ** Descriptor ring builder *)

Definition zero_buf : hica_muc_buf := mk_buf 0 0 0 0.

(** [&list[i]] for an index inside the ring ([list] is [ring] here). *)
Definition ring_at (ring : list hica_muc_buf) (i : Z) : hica_muc_buf :=
  default zero_buf (ring !! Z.to_nat i).

(** A ring store, and the next ring index with its wrap to 0. *)
Definition ring_set (ring : list hica_muc_buf) (i : Z) (b : hica_muc_buf)
    : list hica_muc_buf :=
  <[Z.to_nat i := b]> ring.

Definition ring_next (i list_size : Z) : Z :=
  if u32 (i + 1) >=? list_size then 0 else u32 (i + 1).

(** What one call of [hica_muc_list_append] leaves behind: the return
    value, the ring, the cursor, and (for the proofs only) the entries
    stored, oldest first, each with the stream offset it starts at. *)
Record append_result := mk_append {
  ar_ret : Z;
  ar_list : list hica_muc_buf;
  ar_iter : sg_iter;
  ar_log : list (Z * hica_muc_buf)
}.

(** The body of the [for] loop of [hica_muc_list_append] up to its three
    stores: the entry that goes to [list[i]] for the cursor [iter],
    together with [len], or nothing when [WARN_ON(!sg_iter_valid(iter))]
    fires.  The subtraction in [req_remain] is guarded by the loop
    condition. *)
Definition list_append_buf (ctx : hica_muc_tfm_ctx) (chan : hica_muc_chan)
    (cryptlen runlen : Z) (is_dst : bool) (ring : list hica_muc_buf) (i : Z)
    (iter : sg_iter) : option (hica_muc_buf * Z) :=
  let req_remain := runlen - it_offset iter in
  let pad := it_offset iter >=? cryptlen in
  if negb pad && negb (sg_iter_valid iter) then None
  else
    (* pad for stream cipher mode (CFB/OFB...), or push one BUF *)
    let sg_remain := if pad then 0 else sg_iter_len iter in
    let addr := if pad then ch_pad_addr chan
                else sg_iter_dma_address iter in
    let len := if pad then req_remain
               else min3 sg_remain req_remain MUC_BUF_LEN_MAX in
    let flags := if pad then MUC_BUF_FLAG_END_OF_LIST
                 else if len =? req_remain
                      then MUC_BUF_FLAG_END_OF_LIST else 0 in
    (* if to set IV, limit request to chunk border *)
    let set_iv := negb is_dst &&
                  negb (c_mode (t_ctrl ctx) =? MUC_MODE_ECB) &&
                  (it_offset iter <? t_chunksize ctx) &&
                  (u32 (it_offset iter + len) >=? t_chunksize ctx) in
    let len := if set_iv then t_chunksize ctx - it_offset iter else len in
    let flags := if set_iv
                 then Z.lor MUC_BUF_FLAG_SET_IV MUC_BUF_FLAG_END_OF_LIST
                 else flags in
    let iv_addr := if set_iv then cpu_to_le32 (ch_iv_addr chan)
                   else b_iv_addr (ring_at ring i) in
    Some (mk_buf (cpu_to_le32 addr) (cpu_to_le32 flags) (cpu_to_le32 len)
                 iv_addr, len).

(** The [for] loop of [hica_muc_list_append].  [k] counts the rounds the
    bound [n < chan->list_size] still allows, so the recursion is the
    loop itself and needs no other fuel. *)
Fixpoint list_append_loop (ctx : hica_muc_tfm_ctx) (chan : hica_muc_chan)
    (cryptlen runlen : Z) (is_dst : bool) (k : nat)
    (ring : list hica_muc_buf) (i : Z) (iter : sg_iter) (n : Z)
    (log : list (Z * hica_muc_buf)) : append_result :=
  match k with
  | O => mk_append n ring iter log
  | S k' =>
      if negb (it_offset iter <? runlen) then mk_append n ring iter log
      else
        match list_append_buf ctx chan cryptlen runlen is_dst ring i iter
        with
        | None => mk_append (- EFAULT) ring iter log
        | Some (buf, len) =>
            list_append_loop ctx chan cryptlen runlen is_dst k'
              (ring_set ring i buf) (ring_next i (ch_list_size chan))
              (sg_iter_inc iter len) (n + 1)
              (log ++ [(it_offset iter, buf)])
        end
  end.

Definition hica_muc_list_append (ctx : hica_muc_tfm_ctx)
    (ring : list hica_muc_buf) (i : Z) (iter : sg_iter)
    (chan : hica_muc_chan) (req : skcipher_request) (is_dst : bool)
    : append_result :=
  list_append_loop ctx chan (rq_cryptlen req) (rc_runlen (rq_ctx req))
    is_dst (Z.to_nat (ch_list_size chan)) ring i iter 0 [].

(** ** Field updates *)

Definition set_rq_iv (req : skcipher_request) (iv : list Z)
    : skcipher_request :=
  mk_req (rq_tfm req) (rq_src req) (rq_dst req) (rq_cryptlen req) iv
         (rq_ctx req).

Definition set_rq_ctx (req : skcipher_request) (r_ctx : hica_muc_req_ctx)
    : skcipher_request :=
  mk_req (rq_tfm req) (rq_src req) (rq_dst req) (rq_cryptlen req)
         (rq_iv req) r_ctx.

Definition set_rc_offset (r : hica_muc_req_ctx) (offset : Z)
    : hica_muc_req_ctx :=
  mk_req_ctx (rc_tfm r) (rc_decrypting r) offset (rc_runlen r) (rc_eof r)
             (rc_src_nents r) (rc_dst_nents r) (rc_src r) (rc_dst r).

Definition set_rc_eof (r : hica_muc_req_ctx) (eof : bool)
    : hica_muc_req_ctx :=
  mk_req_ctx (rc_tfm r) (rc_decrypting r) (rc_offset r) (rc_runlen r) eof
             (rc_src_nents r) (rc_dst_nents r) (rc_src r) (rc_dst r).

Definition set_rc_src (r : hica_muc_req_ctx) (src : sg_iter)
    : hica_muc_req_ctx :=
  mk_req_ctx (rc_tfm r) (rc_decrypting r) (rc_offset r) (rc_runlen r)
             (rc_eof r) (rc_src_nents r) (rc_dst_nents r) src (rc_dst r).

Definition set_rc_dst (r : hica_muc_req_ctx) (dst : sg_iter)
    : hica_muc_req_ctx :=
  mk_req_ctx (rc_tfm r) (rc_decrypting r) (rc_offset r) (rc_runlen r)
             (rc_eof r) (rc_src_nents r) (rc_dst_nents r) (rc_src r) dst.

Definition set_ch_dirty (c : hica_muc_chan) (dirty : bool) : hica_muc_chan :=
  mk_chan (ch_id c) dirty (ch_req c) (ch_inout c) (ch_inout_size c)
          (ch_src c) (ch_dst c) (ch_iv c) (ch_src_addr c) (ch_dst_addr c)
          (ch_iv_addr c) (ch_pad_addr c) (ch_src_emit_n c) (ch_dst_emit_n c)
          (ch_list_size c).

Definition set_ch_req (c : hica_muc_chan) (req : req_ptr) : hica_muc_chan :=
  mk_chan (ch_id c) (ch_dirty c) req (ch_inout c) (ch_inout_size c)
          (ch_src c) (ch_dst c) (ch_iv c) (ch_src_addr c) (ch_dst_addr c)
          (ch_iv_addr c) (ch_pad_addr c) (ch_src_emit_n c) (ch_dst_emit_n c)
          (ch_list_size c).

Definition set_ch_inout (c : hica_muc_chan) (inout : list Z)
    : hica_muc_chan :=
  mk_chan (ch_id c) (ch_dirty c) (ch_req c) inout (ch_inout_size c)
          (ch_src c) (ch_dst c) (ch_iv c) (ch_src_addr c) (ch_dst_addr c)
          (ch_iv_addr c) (ch_pad_addr c) (ch_src_emit_n c) (ch_dst_emit_n c)
          (ch_list_size c).

Definition set_ch_src (c : hica_muc_chan) (src : list hica_muc_buf)
    : hica_muc_chan :=
  mk_chan (ch_id c) (ch_dirty c) (ch_req c) (ch_inout c) (ch_inout_size c)
          src (ch_dst c) (ch_iv c) (ch_src_addr c) (ch_dst_addr c)
          (ch_iv_addr c) (ch_pad_addr c) (ch_src_emit_n c) (ch_dst_emit_n c)
          (ch_list_size c).

Definition set_ch_dst (c : hica_muc_chan) (dst : list hica_muc_buf)
    : hica_muc_chan :=
  mk_chan (ch_id c) (ch_dirty c) (ch_req c) (ch_inout c) (ch_inout_size c)
          (ch_src c) dst (ch_iv c) (ch_src_addr c) (ch_dst_addr c)
          (ch_iv_addr c) (ch_pad_addr c) (ch_src_emit_n c) (ch_dst_emit_n c)
          (ch_list_size c).

Definition set_ch_iv (c : hica_muc_chan) (iv : list Z) : hica_muc_chan :=
  mk_chan (ch_id c) (ch_dirty c) (ch_req c) (ch_inout c) (ch_inout_size c)
          (ch_src c) (ch_dst c) iv (ch_src_addr c) (ch_dst_addr c)
          (ch_iv_addr c) (ch_pad_addr c) (ch_src_emit_n c) (ch_dst_emit_n c)
          (ch_list_size c).

Definition set_ch_emit_n (c : hica_muc_chan) (src_emit_n dst_emit_n : Z)
    : hica_muc_chan :=
  mk_chan (ch_id c) (ch_dirty c) (ch_req c) (ch_inout c) (ch_inout_size c)
          (ch_src c) (ch_dst c) (ch_iv c) (ch_src_addr c) (ch_dst_addr c)
          (ch_iv_addr c) (ch_pad_addr c) src_emit_n dst_emit_n
          (ch_list_size c).

(** ** Channel operations

    A channel operation works on the register window, on the memory
    behind the request's scatterlists, on the channel and on the request
    bound to it. *)

Record chan_state := mk_cs {
  cs_regs : gmap Z Z;
  cs_mem : gmap Z Z;
  cs_chan : hica_muc_chan;
  cs_req : skcipher_request
}.

Definition with_regs (s : chan_state) (regs : gmap Z Z) : chan_state :=
  mk_cs regs (cs_mem s) (cs_chan s) (cs_req s).
Definition with_mem (s : chan_state) (mem : gmap Z Z) : chan_state :=
  mk_cs (cs_regs s) mem (cs_chan s) (cs_req s).
Definition with_chan (s : chan_state) (chan : hica_muc_chan) : chan_state :=
  mk_cs (cs_regs s) (cs_mem s) chan (cs_req s).
Definition with_req (s : chan_state) (req : skcipher_request) : chan_state :=
  mk_cs (cs_regs s) (cs_mem s) (cs_chan s) req.

(** The addresses of the bytes a scatterlist covers, in order. *)
Definition sg_byte_addrs (sg : list scatterlist) : list Z :=
  sg ≫= (fun s => (fun k : nat => sg_virt s + Z.of_nat k)
                    <$> seq 0 (Z.to_nat (sg_length s))).

(** [scatterwalk_map_and_copy(buf, sg, start, nbytes, out)] of
    [crypto/scatterwalk.h]: copy [nbytes] bytes between the linear buffer
    [buf] and the scatterlist from its byte [start] on; [out] picks the
    direction buffer-to-scatterlist.  Returns the buffer and the memory. *)
Definition scatterwalk_map_and_copy (buf : list Z) (sg : list scatterlist)
    (start nbytes : Z) (out : bool) (mem : gmap Z Z)
    : list Z * gmap Z Z :=
  let addrs := take (Z.to_nat nbytes) (drop (Z.to_nat start)
                                            (sg_byte_addrs sg)) in
  if out
  then (buf, foldl (fun m ab => <[ab.1 := ab.2]> m) mem (zip addrs buf))
  else (store_bytes buf 0 ((fun a => default 0 (mem !! a)) <$> addrs), mem).

Section Driver.

(** Module parameters, and the kernel's DMA mapping service:
    [dma_map_sg sg nents] is the number of entries [dma_map_sg()] reports
    mapped for the first [nents] entries of [sg], 0 when it fails. *)
Variable extra_check : bool.
Variable small_request : Z.
Variable dma_map_sg : list scatterlist -> Z -> Z.

(** The transform contexts, by address. *)
Variable tfms : nat -> hica_muc_tfm_ctx.

Definition hica_muc_req_is_short (req : skcipher_request) : bool :=
  rq_cryptlen req <=? small_request.

Definition hica_muc_chan_ctrl (chan : hica_muc_chan) (req : skcipher_request)
    (key_from_mkl : bool) (regs : gmap Z Z) : gmap Z Z :=
  let id := ch_id chan in
  let r_ctx := rq_ctx req in
  let ctx := tfms (rc_tfm r_ctx) in
  let ctrl := if id =? MUC_CHAN_PKG1 then MUC_CHAN0_CTRL
              else MUC_CHANn_CTRL id in
  let val := readl regs ctrl in
  let val := if rc_decrypting r_ctx then Z.lor val MUC_CTRL_DECRYPT
             else Z.land val (not32 MUC_CTRL_DECRYPT) in
  let val := Z.land val (not32 MUC_CTRL_MODE) in
  let val := Z.lor val (Z.land (Z.shiftl (c_mode (t_ctrl ctx)) 1)
                               MUC_CTRL_MODE) in
  let val := Z.land val (not32 MUC_CTRL_ALG) in
  let val := Z.lor val (Z.land (Z.shiftl (c_alg (t_ctrl ctx)) 4)
                               MUC_CTRL_ALG) in
  let val := Z.land val (not32 MUC_CTRL_WIDTH) in
  let val := Z.lor val (Z.land (Z.shiftl (c_width (t_ctrl ctx)) 6)
                               MUC_CTRL_WIDTH) in
  let val := if (id =? MUC_CHAN_PKG1) &&
                negb (c_mode (t_ctrl ctx) =? MUC_MODE_ECB)
             then Z.lor val MUC_CTRL_CHAN0_IV_SET
             else Z.land val (not32 MUC_CTRL_CHAN0_IV_SET) in
  let val := Z.land val (not32 MUC_CTRL_KEY) in
  let val := Z.lor val (Z.land (Z.shiftl (c_key (t_ctrl ctx)) 9)
                               MUC_CTRL_KEY) in
  let val := if key_from_mkl then Z.lor val MUC_CTRL_KEY_FROM_MKL
             else
               let val := Z.land val (not32 MUC_CTRL_KEY_FROM_MKL) in
               let val := Z.land val (not32 MUC_CTRL_KEY_ID) in
               Z.lor val (Z.land (Z.shiftl id 14) MUC_CTRL_KEY_ID) in
  writel val ctrl regs.

Definition hica_muc_chan_iv_get (chan : hica_muc_chan)
    (req : skcipher_request) (regs : gmap Z Z) : skcipher_request :=
  let ctx := tfms (rc_tfm (rq_ctx req)) in
  if c_mode (t_ctrl ctx) =? MUC_MODE_ECB then req
  else set_rq_iv req
         (store_bytes (rq_iv req) 0
            (hica_readl_seq regs (MUC_CHANn_IV_OUT0 (ch_id chan))
                            (t_ivsize ctx))).

(** *** The slow channel *)

Definition _hica_muc_chan_push_0 (s : chan_state) : Z * chan_state :=
  let chan := cs_chan s in
  let req := cs_req s in
  let regs := cs_regs s in
  let r_ctx := rq_ctx req in
  let ctx := tfms (rc_tfm r_ctx) in
  let mask := u32 (ch_inout_size chan - 1) in
  let offset_mod := Z.land (rc_offset r_ctx) mask in
  if negb (Z.land (readl regs MUC_CHAN0_CFG) MUC_CHAN0_BUSY =? 0)
  then (- EBUSY, s)
  else
    (* get previous block *)
    let inout :=
      if negb (rc_offset r_ctx =? 0)
      then store_bytes (ch_inout chan)
             (Z.land (u32 (rc_offset r_ctx - t_chunksize ctx)) mask)
             (hica_readl_seq regs MUC_CHAN0_DATA_OUT0 (t_chunksize ctx))
      else ch_inout chan in
    let s := with_chan s (set_ch_inout chan inout) in
    if rc_offset r_ctx >=? rq_cryptlen req then (0, s)
    else
      (* swap buf *)
      let '(inout, mem) :=
        if negb (rc_offset r_ctx =? 0) && (offset_mod =? 0)
        then
          let '(inout, mem) :=
            scatterwalk_map_and_copy inout (rq_dst req)
              (u32 (rc_offset r_ctx - ch_inout_size chan))
              (ch_inout_size chan) true (cs_mem s) in
          scatterwalk_map_and_copy inout (rq_src req) (rc_offset r_ctx)
            (Z.min (rq_cryptlen req - rc_offset r_ctx) (ch_inout_size chan))
            false mem
        else (inout, cs_mem s) in
      (* set next block *)
      let regs :=
        if negb (c_mode (t_ctrl ctx) =? MUC_MODE_ECB) &&
           (rc_offset r_ctx =? t_chunksize ctx)
        then writel (Z.land (readl regs MUC_CHAN0_CTRL)
                            (not32 MUC_CTRL_CHAN0_IV_SET))
                    MUC_CHAN0_CTRL regs
        else regs in
      let regs := hica_writel_seq inout offset_mod MUC_CHAN0_DATA_IN0
                                  (t_chunksize ctx) regs in
      let r_ctx := set_rc_offset r_ctx
                     (u32 (rc_offset r_ctx + t_chunksize ctx)) in
      (- EINPROGRESS,
       mk_cs regs mem (set_ch_inout chan inout) (set_rq_ctx req r_ctx)).

Definition _hica_muc_chan_emit_0 (regs : gmap Z Z) : gmap Z Z :=
  writel MUC_CHAN0_START MUC_CHAN0_CFG regs.

Definition _hica_muc_chan_unprepare_0 (no_output : bool) (s : chan_state)
    : chan_state :=
  let chan := cs_chan s in
  let req := cs_req s in
  let regs := cs_regs s in
  let ctx := tfms (rc_tfm (rq_ctx req)) in
  (* output *)
  let '(req, mem) :=
    if negb no_output
    then
      let cryptlen_mod :=
        Z.land (rq_cryptlen req) (u32 (ch_inout_size chan - 1)) in
      let req := hica_muc_chan_iv_get chan req regs in
      let '(_, mem) :=
        scatterwalk_map_and_copy (ch_inout chan) (rq_dst req)
          (rq_cryptlen req - cryptlen_mod) cryptlen_mod true (cs_mem s) in
      (req, mem)
    else (req, cs_mem s) in
  (* erase *)
  let regs := hica_setl_seq 0 MUC_CHAN0_DATA_IN0 (t_chunksize ctx) regs in
  let regs := if negb (c_mode (t_ctrl ctx) =? MUC_MODE_ECB)
              then hica_setl_seq 0 MUC_CHAN0_IV_IN0 (t_ivsize ctx) regs
              else regs in
  let inout := memzero (ch_inout chan) (ch_inout_size chan) in
  mk_cs regs mem (set_ch_inout chan inout) req.

Definition _hica_muc_chan_prepare_0 (s : chan_state) : Z * chan_state :=
  let chan := cs_chan s in
  let req := cs_req s in
  let ctx := tfms (rc_tfm (rq_ctx req)) in
  let regs :=
    if negb (c_mode (t_ctrl ctx) =? MUC_MODE_ECB)
    then hica_writel_seq (rq_iv req) 0 MUC_CHAN0_IV_IN0 (t_ivsize ctx)
                         (cs_regs s)
    else cs_regs s in
  let r_ctx := set_rc_offset (rq_ctx req) 0 in
  let '(inout, mem) :=
    scatterwalk_map_and_copy (ch_inout chan) (rq_src req) 0
      (Z.min (rq_cryptlen req) (ch_inout_size chan)) false (cs_mem s) in
  (0, mk_cs regs mem (set_ch_inout chan inout) (set_rq_ctx req r_ctx)).

(** *** The ring channels *)

(** "read ring buffer status" of [_hica_muc_chan_push_n], for the source
    ring and for the destination ring: the register writes up to the
    read of the ring pointer. *)
Definition push_n_status_src (chan : hica_muc_chan) (regs : gmap Z Z)
    : gmap Z Z :=
  let id := ch_id chan in
  let val := readw regs (MUC_CHANn_IN_EMPTY_CNT id) in
  let regs := if negb (val =? 0)
              then writew val (MUC_CHANn_IN_EMPTY_CNT id) regs
              else regs in
  if extra_check then
    let val := readl regs (MUC_CHANn_SRC_LST_ADDR id) in
    let regs := if negb (val =? ch_src_addr chan)
                then writel (ch_src_addr chan)
                            (MUC_CHANn_SRC_LST_ADDR id) regs
                else regs in
    let val := readw regs (MUC_CHANn_IN_BUF_NUM id) in
    if negb (val =? ch_list_size chan)
    then writew (ch_list_size chan) (MUC_CHANn_IN_BUF_NUM id) regs
    else regs
  else regs.

Definition push_n_status_dst (chan : hica_muc_chan) (regs : gmap Z Z)
    : gmap Z Z :=
  let id := ch_id chan in
  let val := readw regs (MUC_CHANn_OUT_FULL_CNT id) in
  let regs := if negb (val =? 0)
              then writew val (MUC_CHANn_OUT_FULL_CNT id) regs
              else regs in
  if extra_check then
    let val := readl regs (MUC_CHANn_DST_LST_ADDR id) in
    let regs := if negb (val =? ch_dst_addr chan)
                then writel (ch_dst_addr chan)
                            (MUC_CHANn_DST_LST_ADDR id) regs
                else regs in
    let val := readw regs (MUC_CHANn_OUT_BUF_NUM id) in
    if negb (val =? ch_list_size chan)
    then writew (ch_list_size chan) (MUC_CHANn_OUT_BUF_NUM id) regs
    else regs
  else regs.

(** "set buffers" of [_hica_muc_chan_push_n], with the ring pointers
    [src_i] and [dst_i] just read.  A ring store at an index outside the
    ring, which would corrupt memory in C, is dropped. *)
Definition push_n_set_buffers (src_todo dst_todo : bool)
    (src_i dst_i dst_n : Z) (s : chan_state) : Z * chan_state :=
  let chan := cs_chan s in
  let req := cs_req s in
  if negb (rc_eof (rq_ctx req)) then
    let ra :=
      if negb src_todo
      then mk_append 0 (ch_src chan) (rc_src (rq_ctx req)) []
      else hica_muc_list_append (tfms (rc_tfm (rq_ctx req))) (ch_src chan)
             src_i (rc_src (rq_ctx req)) chan req false in
    let chan := set_ch_src chan (ar_list ra) in
    let req := set_rq_ctx req (set_rc_src (rq_ctx req) (ar_iter ra)) in
    let src_emit_n := ar_ret ra in
    if src_emit_n <? 0
    then (src_emit_n, with_req (with_chan s chan) req)
    else
    let rb :=
      if negb dst_todo
      then mk_append 0 (ch_dst chan) (rc_dst (rq_ctx req)) []
      else hica_muc_list_append (tfms (rc_tfm (rq_ctx req))) (ch_dst chan)
             dst_i (rc_dst (rq_ctx req)) chan req true in
    let chan := set_ch_dst chan (ar_list rb) in
    let req := set_rq_ctx req (set_rc_dst (rq_ctx req) (ar_iter rb)) in
    let dst_emit_n := ar_ret rb in
    if dst_emit_n <? 0
    then (dst_emit_n, with_req (with_chan s chan) req)
    else
    (- EINPROGRESS,
     with_req (with_chan s (set_ch_emit_n chan src_emit_n dst_emit_n)) req)
  else
    let buf := ring_at (ch_src chan) src_i in
    let chan :=
      set_ch_src chan
        (ring_set (ch_src chan) src_i
           (mk_buf (cpu_to_le32 (ch_pad_addr chan))
                   (cpu_to_le32 MUC_BUF_FLAG_END_OF_LIST)
                   (cpu_to_le32 MUC_BLOCK_SIZE) (b_iv_addr buf))) in
    let dst_i := u32 (dst_i + dst_n) in
    let dst_i := if dst_i >=? ch_list_size chan
                 then u32 (dst_i - ch_list_size chan) else dst_i in
    let buf := ring_at (ch_dst chan) dst_i in
    let chan :=
      set_ch_dst chan
        (ring_set (ch_dst chan) dst_i
           (mk_buf (cpu_to_le32 (ch_pad_addr chan))
                   (cpu_to_le32 MUC_BUF_FLAG_END_OF_LIST)
                   (cpu_to_le32 MUC_BLOCK_SIZE) (b_iv_addr buf))) in
    (- EINPROGRESS, with_chan s (set_ch_emit_n chan 1 1)).

(** The part of [_hica_muc_chan_push_n] from "read ring buffer status"
    on, entered with [src_todo] and [dst_todo] decided and with
    [r_ctx->eof] already updated.  [src_i] and [dst_i] are used only
    where the C code has assigned them. *)
Definition push_n_fill (src_todo dst_todo : bool) (dst_n : Z)
    (s : chan_state) : Z * chan_state :=
  let chan := cs_chan s in
  let id := ch_id chan in
  let regs := if src_todo then push_n_status_src chan (cs_regs s)
              else cs_regs s in
  let src_i := readw regs (MUC_CHANn_SRC_LST_PTR id) in
  if src_todo && (src_i >=? ch_list_size chan)
  then (- EIO, with_regs s regs)
  else
    let regs := if dst_todo then push_n_status_dst chan regs else regs in
    let dst_i := readw regs (MUC_CHANn_DST_LST_PTR id) in
    if dst_todo && (dst_i >=? ch_list_size chan)
    then (- EIO, with_regs s regs)
    else push_n_set_buffers src_todo dst_todo src_i dst_i dst_n
                            (with_regs s regs).

Definition _hica_muc_chan_push_n (s : chan_state) : Z * chan_state :=
  let chan := cs_chan s in
  let req := cs_req s in
  let regs := cs_regs s in
  let id := ch_id chan in
  let r_ctx := rq_ctx req in
  let src_eof := it_offset (rc_src r_ctx) >=? rc_runlen r_ctx in
  let src_n := readl regs (MUC_CHANn_IN_BUF_CNT id) in
  let dst_eof := it_offset (rc_dst r_ctx) >=? rc_runlen r_ctx in
  let dst_n := readl regs (MUC_CHANn_OUT_BUF_CNT id) in
  if (src_n =? 0) && (dst_n =? 0) && rc_eof r_ctx then (0, s)
  else if (negb (src_n =? 0) && negb (dst_n =? 0)) || rc_eof r_ctx
  then (- EBUSY, s)
  else if src_eof && dst_eof && (src_n =? 0) then
    (* the EOF quirk *)
    let req := set_rq_ctx req (set_rc_eof r_ctx true) in
    (* first, IV is already done *)
    let req := hica_muc_chan_iv_get chan req regs in
    let s := with_req s req in
    (* if no dst buffer left, no stuck happened (and we are done) *)
    if dst_n =? 0 then (0, s)
    (* check MUC_CHANn_OUT_LEFT to see if it's really stucked *)
    else if Z.shiftr (readl regs (MUC_CHANn_OUT_LEFT id)) 24 =? 0
    then (- EBUSY, s)
    (* stucked; issue one more request to push the hardware *)
    else push_n_fill true true dst_n s
  else
    let src_todo := (src_n =? 0) && negb src_eof in
    let dst_todo := (dst_n =? 0) && negb dst_eof in
    push_n_fill src_todo dst_todo dst_n s.

Definition _hica_muc_chan_emit_n (chan : hica_muc_chan) (regs : gmap Z Z)
    : hica_muc_chan * gmap Z Z :=
  let id := ch_id chan in
  let src_emit_n := ch_src_emit_n chan in
  let dst_emit_n := ch_dst_emit_n chan in
  let chan := set_ch_emit_n chan 0 0 in
  let regs :=
    if negb (dst_emit_n =? 0)
    then writew dst_emit_n (MUC_CHANn_OUT_BUF_CNT id)
           (writew dst_emit_n (MUC_CHANn_INT_OUT_CNT_CFG id) regs)
    else regs in
  let regs :=
    if negb (src_emit_n =? 0)
    then writew src_emit_n (MUC_CHANn_IN_BUF_CNT id)
           (writew src_emit_n (MUC_CHANn_INT_IN_CNT_CFG id) regs)
    else regs in
  (chan, regs).

(** The DMA syncs and unmaps leave no trace in the model. *)
Definition _hica_muc_chan_unprepare_n (no_output : bool) (s : chan_state)
    : chan_state :=
  let chan := cs_chan s in
  let ctx := tfms (rc_tfm (rq_ctx (cs_req s))) in
  (* erase *)
  if negb (c_mode (t_ctrl ctx) =? MUC_MODE_ECB)
  then with_chan s (set_ch_iv chan (memzero (ch_iv chan) MUC_IV_SIZE))
  else s.

(** [sg_nents_for_len(sg, len)] of [lib/scatterlist.c]: how many entries
    cover [len] bytes, [-EINVAL] when the list is too short. *)
Fixpoint sg_nents_loop (sg : list scatterlist) (len nents total : Z) : Z :=
  match sg with
  | [] => - EINVAL
  | s :: rest =>
      let nents := nents + 1 in
      let total := total + sg_length s in
      if total >=? len then nents else sg_nents_loop rest len nents total
  end.

Definition sg_nents_for_len (sg : list scatterlist) (len : Z) : Z :=
  if len =? 0 then 0 else sg_nents_loop sg len 0 0.

(** [req->src == req->dst] compares two pointers; here two scatterlists
    are the same list when they have the same entries.  [memcpy] of
    [MUC_IV_SIZE] bytes from [req->iv] copies what the request holds. *)
Definition _hica_muc_chan_prepare_n (s : chan_state) : Z * chan_state :=
  let chan := cs_chan s in
  let req := cs_req s in
  let id := ch_id chan in
  let bidirectional := bool_decide (rq_src req = rq_dst req) in
  let r_ctx := rq_ctx req in
  let ctx := tfms (rc_tfm r_ctx) in
  let src_nents := sg_nents_for_len (rq_src req) (rq_cryptlen req) in
  if src_nents <? 0 then (src_nents, s)
  else
  let dst_nents := sg_nents_for_len (rq_dst req) (rq_cryptlen req) in
  if negb bidirectional && (dst_nents <? 0) then (dst_nents, s)
  else
  let src_nents := dma_map_sg (rq_src req) src_nents in
  if src_nents <=? 0 then (- EIO, s)
  else
  let dst_nents := if bidirectional then src_nents
                   else dma_map_sg (rq_dst req) dst_nents in
  if dst_nents <=? 0 then (- EIO, s)
  else
  let r_ctx :=
    mk_req_ctx (rc_tfm r_ctx) (rc_decrypting r_ctx) (rc_offset r_ctx)
      (* pad request length to multiples of chunksize *)
      (ALIGN (rq_cryptlen req) (t_chunksize ctx))
      false src_nents dst_nents
      (sg_iter_init (rq_src req)) (sg_iter_init (rq_dst req)) in
  (* setup ring buffers *)
  let regs := cs_regs s in
  let regs := writel (ch_src_addr chan) (MUC_CHANn_SRC_LST_ADDR id) regs in
  let regs := writew (ch_list_size chan) (MUC_CHANn_IN_BUF_NUM id) regs in
  let regs := writew 0 (MUC_CHANn_IN_AGE_CNT id) regs in
  let regs := writel (ch_dst_addr chan) (MUC_CHANn_DST_LST_ADDR id) regs in
  let regs := writew (ch_list_size chan) (MUC_CHANn_OUT_BUF_NUM id) regs in
  let regs := writew 0 (MUC_CHANn_OUT_AGE_CNT id) regs in
  (* erase in case of not being 0 *)
  let regs := writel 0 (MUC_CHANn_IN_LEFT id) regs in
  let val := readw regs (MUC_CHANn_OUT_BUF_CNT id) in
  let regs := if negb (val =? 0)
              then writew (0x10000 - val) (MUC_CHANn_OUT_BUF_CNT id) regs
              else regs in
  (* setup data *)
  let chan :=
    if negb (c_mode (t_ctrl ctx) =? MUC_MODE_ECB)
    then set_ch_iv chan
           (store_bytes (ch_iv chan) 0
                        (take (Z.to_nat MUC_IV_SIZE) (rq_iv req)))
    else chan in
  (0, mk_cs regs (cs_mem s) chan (set_rq_ctx req r_ctx)).

(** *** The channel interface *)

Definition hica_muc_chan_push (s : chan_state) : Z * chan_state :=
  if ch_dirty (cs_chan s) then (- EBUSY, s)
  else
    let '(ret, s) := if ch_id (cs_chan s) =? MUC_CHAN_PKG1
                     then _hica_muc_chan_push_0 s
                     else _hica_muc_chan_push_n s in
    if ret =? - EINPROGRESS
    then (ret, with_chan s (set_ch_dirty (cs_chan s) true))
    else (ret, s).

Definition hica_muc_chan_emit (chan : hica_muc_chan) (regs : gmap Z Z)
    : hica_muc_chan * gmap Z Z :=
  if negb (ch_dirty chan) then (chan, regs)
  else if ch_id chan =? MUC_CHAN_PKG1
       then (chan, _hica_muc_chan_emit_0 regs)
       else _hica_muc_chan_emit_n chan regs.
  (* dirty bit is cleared in interrupt handler *)

Definition hica_muc_chan_unprepare (no_output : bool) (s : chan_state)
    : chan_state :=
  let id := ch_id (cs_chan s) in
  let ctx := tfms (rc_tfm (rq_ctx (cs_req s))) in
  let s :=
    if negb (t_keysize ctx =? 0)
    then with_regs s (hica_setl_seq 0 (MUC_CHANn_KEY0 id) (t_keysize ctx)
                                    (cs_regs s))
    else s in
  let s := if id =? MUC_CHAN_PKG1
           then _hica_muc_chan_unprepare_0 no_output s
           else _hica_muc_chan_unprepare_n no_output s in
  if negb (c_mode (t_ctrl ctx) =? MUC_MODE_ECB)
  then with_regs s (hica_setl_seq 0 (MUC_CHANn_IV_OUT0 id) (t_ivsize ctx)
                                  (cs_regs s))
  else s.

Definition hica_muc_chan_prepare (s : chan_state) : Z * chan_state :=
  let ctx := tfms (rc_tfm (rq_ctx (cs_req s))) in
  let '(ret, s') := if ch_id (cs_chan s) =? MUC_CHAN_PKG1
                    then _hica_muc_chan_prepare_0 s
                    else _hica_muc_chan_prepare_n s in
  if negb (ret =? 0) then (ret, s')
  else
    let regs := hica_muc_chan_ctrl (cs_chan s') (cs_req s')
                                   (t_keysize ctx =? 0) (cs_regs s') in
    let regs :=
      if negb (t_keysize ctx =? 0)
      then hica_writel_seq (t_key ctx) 0 (MUC_CHANn_KEY0 (ch_id (cs_chan s')))
                           (t_keysize ctx) regs
      else regs in
    (0, with_regs s' regs).

(** ** The device

    [struct hica_muc_priv] ([m_no_dma], [m_chans]) together with what the
    driver acts on: the register window, the memory behind the
    scatterlists, how often the sweeper's completion [cond] has been
    signalled, and the calls of [skcipher_request_complete], oldest
    first, each with the request as it was handed back and its status. *)

Record machine := mk_machine {
  m_regs : gmap Z Z;
  m_mem : gmap Z Z;
  m_no_dma : bool;
  m_chans : list hica_muc_chan;
  m_cond : nat;
  m_done : list (skcipher_request * Z)
}.

(** [devm_kzalloc] hands out zeroed channels. *)
Definition zero_chan : hica_muc_chan :=
  mk_chan 0 false ReqNull [] 0 [] [] [] 0 0 0 0 0 0 0.

(** [&priv->chans[id]] and its write-back. *)
Definition chan_at (chans : list hica_muc_chan) (id : Z) : hica_muc_chan :=
  default zero_chan (chans !! Z.to_nat id).

Definition chan_put (chans : list hica_muc_chan) (id : Z)
    (chan : hica_muc_chan) : list hica_muc_chan :=
  <[Z.to_nat id := chan]> chans.

(** *** irq *)

(** One round of the [for] loop of [hica_muc_process].  No other context
    runs in between, so [xchg] returns the request just read. *)
Definition process_chan (acc : Z * machine) (id : Z) : Z * machine :=
  let '(mask, m) := acc in
  let chan := chan_at (m_chans m) id in
  match ch_req chan with
  | ReqPtr req =>
      (* req = xchg(&chan->req, ERR_PTR(-EBUSY)) *)
      let chan := set_ch_req chan (ReqErr (- EBUSY)) in
      let '(ret, s) :=
        hica_muc_chan_push (mk_cs (m_regs m) (m_mem m) chan req) in
      if ret =? - EBUSY then
        (mask,
         mk_machine (cs_regs s) (cs_mem s) (m_no_dma m)
           (chan_put (m_chans m) id
              (set_ch_req (cs_chan s) (ReqPtr (cs_req s))))
           (m_cond m) (m_done m))
      else
        let mask := Z.lor mask (BIT id) in
        if ret =? - EINPROGRESS then
          let chan := set_ch_req (cs_chan s) (ReqPtr (cs_req s)) in
          let '(chan, regs) := hica_muc_chan_emit chan (cs_regs s) in
          (mask,
           mk_machine regs (cs_mem s) (m_no_dma m)
             (chan_put (m_chans m) id chan) (m_cond m) (m_done m))
        else
          (* task finished (or failed) *)
          let s := hica_muc_chan_unprepare (negb (ret =? 0)) s in
          (mask,
           mk_machine (cs_regs s) (cs_mem s) (m_no_dma m)
             (chan_put (m_chans m) id (set_ch_req (cs_chan s) ReqNull))
             (m_cond m) (m_done m ++ [(cs_req s, ret)]))
  | _ => (mask, m)
  end.

Definition hica_muc_process (m : machine) : Z * machine :=
  foldl process_chan (0, m) (seqZ 0 MUC_CHAN_NUM).

Definition IRQ_NONE : Z := 0.
Definition IRQ_HANDLED : Z := 1.

(** "clear dirty bits" in [hica_muc_handle]. *)
Definition clear_dirty (val : Z) (chans : list hica_muc_chan)
    : list hica_muc_chan :=
  foldl (fun cs id =>
           if negb (Z.land val (BIT id) =? 0)
           then chan_put cs id (set_ch_dirty (chan_at cs id) false)
           else cs)
        chans (seqZ 0 MUC_CHAN_NUM).

Definition hica_muc_handle (m : machine) : Z * machine :=
  (* clear interrupts *)
  let val := readl (m_regs m) MUC_INT_STATUS in
  if val =? 0 then (IRQ_NONE, m)
  else
    let regs := writel val MUC_INT_RAW (m_regs m) in
    (* clear dirty bits *)
    let val := Z.lor val (Z.shiftr val MUC_CHAN_NUM) in
    let chans := clear_dirty val (m_chans m) in
    let wake := fun regs mem chans =>
      (IRQ_HANDLED,
       mk_machine regs mem (m_no_dma m) chans (S (m_cond m)) (m_done m)) in
    (* feed channel 0 quickly *)
    if negb (val =? MUC_INT_CHAN0_DATA_DISPOSE)
    then wake regs (m_mem m) chans
    else
      let chan := chan_at chans MUC_CHAN_PKG1 in
      match ch_req chan with
      | ReqErr _ | ReqNull =>
          (* nothing to push; the slot keeps, or gets back, its value *)
          wake regs (m_mem m) chans
      | ReqPtr req =>
          let chan := set_ch_req chan (ReqErr (- EBUSY)) in
          let '(ret, s) :=
            hica_muc_chan_push (mk_cs regs (m_mem m) chan req) in
          (* be ready for next interrupt *)
          let chan := set_ch_req (cs_chan s) (ReqPtr (cs_req s)) in
          if ret =? - EINPROGRESS then
            let '(chan, regs) := hica_muc_chan_emit chan (cs_regs s) in
            (IRQ_HANDLED,
             mk_machine regs (cs_mem s) (m_no_dma m)
               (chan_put chans MUC_CHAN_PKG1 chan) (m_cond m) (m_done m))
          else
            wake (cs_regs s) (cs_mem s) (chan_put chans MUC_CHAN_PKG1 chan)
      end.

(** *** skcipher_alg *)

Definition des_check_weakkey_half (key : list Z) : Z :=
  if forallb (fun i => Z.shiftr (Z.lxor (byte_at key i) (byte_at key 0)) 1
                       =? 0)
             (seqZ 1 (DES_KEY_SIZE / 2 - 1))
  then - EINVAL else 0.

(** [a ?: b] is [a] unless [a] is 0; [key + DES_KEY_SIZE / 2] drops the
    first half. *)
Definition des_check_weakkey (key : list Z) : Z :=
  let r := des_check_weakkey_half key in
  if negb (r =? 0) then r
  else des_check_weakkey_half (drop (Z.to_nat (DES_KEY_SIZE / 2)) key).

Fixpoint ctrl_key_lookup_loop (maps : list hica_muc_ctrl_key_map)
    (alg keylen : Z) : Z :=
  match maps with
  | [] => 0
  | e :: rest =>
      if km_keylen e =? 0 then 0
      else if (km_alg e =? alg) && (km_keylen e =? keylen) then km_key e
      else ctrl_key_lookup_loop rest alg keylen
  end.

Definition hica_muc_ctrl_key_lookup (alg keylen : Z) : Z :=
  ctrl_key_lookup_loop hica_muc_ctrl_key_maps alg keylen.

(** [aes_check_keylen] of [crypto/aes.h]. *)
Definition aes_check_keylen (keylen : Z) : Z :=
  if (keylen =? AES_KEYSIZE_128) || (keylen =? AES_KEYSIZE_192) ||
     (keylen =? AES_KEYSIZE_256)
  then 0 else - EINVAL.

Definition set_t_key (ctx : hica_muc_tfm_ctx) (sel : Z) (key : list Z)
    (keysize : Z) : hica_muc_tfm_ctx :=
  mk_tfm_ctx (mk_ctrl (c_mode (t_ctrl ctx)) (c_alg (t_ctrl ctx))
                      (c_width (t_ctrl ctx)) sel)
             (t_ivsize ctx) (t_chunksize ctx) keysize key.

(** [hica_muc_alg_setkey] on the transform context it is given; it takes
    no register window and no channel. *)
Definition hica_muc_alg_setkey (ctx : hica_muc_tfm_ctx) (key : list Z)
    (keylen : Z) : Z * hica_muc_tfm_ctx :=
  if keylen >? MUC_KEY_SIZE then (- EINVAL, ctx)
  else
    let alg := c_alg (t_ctrl ctx) in
    let bad :=
      if alg =? MUC_ALG_AES then negb (aes_check_keylen keylen =? 0)
      else if alg =? MUC_ALG_DES
           then negb (keylen =? DES_KEY_SIZE) ||
                negb (des_check_weakkey key =? 0)
      else if alg =? MUC_ALG_DES3_EDE then negb (keylen =? DES3_EDE_KEY_SIZE)
      else true in
    if bad then (- EINVAL, ctx)
    else
      (0, set_t_key ctx (hica_muc_ctrl_key_lookup alg keylen)
            (store_bytes (t_key ctx) 0 (take (Z.to_nat keylen) key))
            keylen).

(** "get an idle channel": the first channel of [ids] whose slot
    [try_cmpxchg_acquire] finds [NULL]. *)
Fixpoint acquire_chan (chans : list hica_muc_chan) (ids : list Z)
    : option Z :=
  match ids with
  | [] => None
  | id :: rest =>
      match ch_req (chan_at chans id) with
      | ReqNull => Some id
      | _ => acquire_chan chans rest
      end
  end.

Definition hica_muc_alg_encdec (req : skcipher_request) (decrypting : bool)
    (m : machine) : Z * machine :=
  let start := if m_no_dma m || hica_muc_req_is_short req
               then MUC_CHAN_PKG1 else MUC_CHAN_PKGn_MIN in
  match acquire_chan (m_chans m) (seqZ start (MUC_CHAN_NUM - start)) with
  | None => (- EBUSY, m)
  | Some id =>
      (* acquired: the slot now holds ERR_PTR(-EBUSY) *)
      let chan := set_ch_req (chan_at (m_chans m) id) (ReqErr (- EBUSY)) in
      let r := rq_ctx req in
      let r_ctx :=
        mk_req_ctx (rq_tfm req) decrypting (rc_offset r) (rc_runlen r)
                   (rc_eof r) (rc_src_nents r) (rc_dst_nents r)
                   (rc_src r) (rc_dst r) in
      let '(ret, s) :=
        hica_muc_chan_prepare
          (mk_cs (m_regs m) (m_mem m) chan (set_rq_ctx req r_ctx)) in
      if negb (ret =? 0) then
        (ret,
         mk_machine (cs_regs s) (cs_mem s) (m_no_dma m)
           (chan_put (m_chans m) id (set_ch_req (cs_chan s) ReqNull))
           (m_cond m) (m_done m))
      else
        (- EINPROGRESS,
         mk_machine (cs_regs s) (cs_mem s) (m_no_dma m)
           (chan_put (m_chans m) id
              (set_ch_req (cs_chan s) (ReqPtr (cs_req s))))
           (S (m_cond m)) (m_done m))
  end.

Definition hica_muc_alg_encrypt (req : skcipher_request) (m : machine)
    : Z * machine :=
  hica_muc_alg_encdec req false m.

Definition hica_muc_alg_decrypt (req : skcipher_request) (m : machine)
    : Z * machine :=
  hica_muc_alg_encdec req true m.

(** *** device *)

(** What the rest of the kernel and the device answer during probe: the
    result of each service call in the order of the code (0 or a
    negative errno; a buffer or an address for the allocators), whether
    [MUC_STATE_VALID] shows up before the poll times out, and the value
    the device latches when [MUC_INT_CFG] is written, which is how absent
    channels show. *)
Record probe_env := mk_probe_env {
  pe_kzalloc : bool;
  pe_ioremap : Z;
  pe_clk_get : Z;
  pe_rst_get : Z;
  pe_irq0 : Z;
  pe_irq1 : Z;
  pe_algs_alloc : bool;
  pe_rst_assert : Z;
  pe_clk_enable : Z;
  pe_rst_deassert : Z;
  pe_state_valid : bool;
  pe_int_cfg : Z -> Z;
  pe_request_irq : Z -> Z;
  pe_kmalloc : Z -> option (list Z);
  pe_dma_alloc : Z -> Z -> option Z;
  pe_kthread_create : Z;
  pe_alg_register : Z
}.

(** [disable[0 .. disable_n - 1]], the third module parameter. *)
Variable disable : list Z.

Definition hica_muc_chan_init (env : probe_env) (regs : gmap Z Z) (id : Z)
    : Z * hica_muc_chan :=
  if id =? MUC_CHAN_PKG1 then
    match pe_kmalloc env small_request with
    | None => (- ENOMEM,
               mk_chan id false ReqNull [] small_request [] [] []
                       0 0 0 0 0 0 0)
    | Some inout =>
        (0, mk_chan id false ReqNull inout small_request [] [] []
                    0 0 0 0 0 0 0)
    end
  else
    let list_size := Z.min MUC_BUF_NUM MUC_BUF_NUM_MAX in
    let src_i := readw regs (MUC_CHANn_SRC_LST_PTR id) in
    let dst_i := readw regs (MUC_CHANn_DST_LST_PTR id) in
    let chan := mk_chan id false ReqNull [] 0 [] [] [] 0 0 0 0 0 0
                        list_size in
    if (src_i >=? list_size) || (dst_i >=? list_size) then (- EINVAL, chan)
    else
      let list_memsize := list_size * 16 in
      match pe_dma_alloc env id
              (2 * list_memsize + MUC_IV_SIZE + MUC_BLOCK_SIZE) with
      | None => (- ENOMEM, chan)
      | Some src_addr =>
          let ring := replicate (Z.to_nat list_size) zero_buf in
          let dst_addr := src_addr + list_memsize in
          let iv_addr := dst_addr + list_memsize in
          (0, mk_chan id false ReqNull [] 0 ring ring
                      (replicate (Z.to_nat MUC_IV_SIZE) 0)
                      src_addr dst_addr iv_addr (iv_addr + MUC_IV_SIZE)
                      0 0 list_size)
      end.

(** The channel test of [hica_muc_probe]: [chan_mask] from the read-back
    of [MUC_INT_CFG] and the admin's [disable_mask]. *)
Definition probe_disable_mask : Z :=
  foldl (fun mask d => Z.lor mask (u32 (BIT d))) 0 disable.

Definition probe_chan_mask (val disable_mask : Z) : Z :=
  foldl (fun chan_mask id =>
           let int_ok := negb (Z.land val (MUC_INT_CHANn_OUT_BUF id) =? 0) in
           let enabled := Z.land disable_mask (BIT id) =? 0 in
           if int_ok && enabled then Z.lor chan_mask (BIT id)
           else chan_mask)
        0 (seqZ 0 MUC_CHAN_NUM).

(** "setup channels": stops at the first channel that fails to
    initialise. *)
Fixpoint probe_setup_chans (env : probe_env) (regs : gmap Z Z)
    (chan_mask : Z) (ids : list Z) (chans : list hica_muc_chan)
    : Z * list hica_muc_chan :=
  match ids with
  | [] => (0, chans)
  | id :: rest =>
      if Z.land chan_mask (BIT id) =? 0
      then probe_setup_chans env regs chan_mask rest
             (chan_put chans id
                (set_ch_req (chan_at chans id) (ReqErr (- EINVAL))))
      else
        let '(ret, chan) := hica_muc_chan_init env regs id in
        if negb (ret =? 0) then (ret, chan_put chans id chan)
        else probe_setup_chans env regs chan_mask rest
               (chan_put chans id chan)
  end.

(** Set the slot of every channel in [mask] to [slot]. *)
Definition probe_set_slots (mask : Z) (slot : req_ptr)
    (chans : list hica_muc_chan) : list hica_muc_chan :=
  foldl (fun cs id =>
           if negb (Z.land mask (BIT id) =? 0)
           then chan_put cs id (set_ch_req (chan_at cs id) slot)
           else cs)
        chans (seqZ 0 MUC_CHAN_NUM).

(** The result of probe: the return value, and the device the driver
    core keeps when that is 0. *)
Record probe_result := mk_probe_result {
  pr_ret : Z;
  pr_dev : option machine
}.

Definition probe_fail (ret : Z) : probe_result := mk_probe_result ret None.

(** [hica_muc_probe], from the register window and the memory it finds.
    The error paths ([err_task], [err_clk], [err_rst]) only undo clocks,
    reset and the sweeper, which the model does not hold. *)
Definition hica_muc_probe (env : probe_env) (regs mem : gmap Z Z)
    : probe_result :=
  (* acquire resources *)
  if negb (pe_kzalloc env) then probe_fail (- ENOMEM)
  else if pe_ioremap env <? 0 then probe_fail (pe_ioremap env)
  else if pe_clk_get env <? 0 then probe_fail (pe_clk_get env)
  else if pe_rst_get env <? 0 then probe_fail (pe_rst_get env)
  else if pe_irq0 env <? 0 then probe_fail (pe_irq0 env)
  else if negb (pe_algs_alloc env) then probe_fail (- ENOMEM)
  (* bring up device *)
  else if negb (pe_rst_assert env =? 0) then probe_fail (pe_rst_assert env)
  else if negb (pe_clk_enable env =? 0) then probe_fail (pe_clk_enable env)
  else if negb (pe_rst_deassert env =? 0)
  then probe_fail (pe_rst_deassert env)
  else if negb (pe_state_valid env) then probe_fail (- ENODEV)
  else
    (* clear all interrupts *)
    let regs := writel (Z.ones 32) MUC_INT_RAW regs in
    (* must set this before enabling interrupts *)
    let val := foldl (fun v id => Z.lor v (MUC_SEC_CHANn_BIT id))
                     (readl regs MUC_SEC_CHAN_CFG) (seqZ 0 MUC_CHAN_NUM) in
    let regs := writel val MUC_SEC_CHAN_CFG regs in
    (* enable interrupts *)
    let val := foldl (fun v id => Z.lor (Z.lor v (MUC_INT_CHANn_IN_BUF id))
                                        (MUC_INT_CHANn_OUT_BUF id))
                     (readl regs MUC_INT_CFG)
                     (seqZ MUC_CHAN_PKGn_MIN
                           (MUC_CHAN_NUM - MUC_CHAN_PKGn_MIN)) in
    let val := Z.lor val MUC_INT_CHAN0_DATA_DISPOSE in
    let val := Z.lor val MUC_INT_CFG_SEC_EN in
    let val := Z.lor val MUC_INT_CFG_NSEC_EN in
    let regs := writel (pe_int_cfg env (u32 val)) MUC_INT_CFG regs in
    (* test channel availability *)
    let disable_mask := probe_disable_mask in
    let val := readl regs MUC_INT_CFG in
    let chan_mask := probe_chan_mask val disable_mask in
    if chan_mask =? 0 then probe_fail (- ENODEV)
    else
    let no_dma := chan_mask =? BIT MUC_CHAN_PKG1 in
    if no_dma && (disable_mask =? 0) then probe_fail (- EINVAL)
    else
    (* clear bypass *)
    let regs := writel (Z.land (readl regs MUC_SRC_ADDR_SMMU_BYPASS)
                               (not32 (GENMASK 7 0)))
                       MUC_SRC_ADDR_SMMU_BYPASS regs in
    let regs := writel (Z.land (readl regs MUC_DST_ADDR_SMMU_BYPASS)
                               (not32 (GENMASK 7 0)))
                       MUC_DST_ADDR_SMMU_BYPASS regs in
    (* register irq *)
    let ret := if pe_irq0 env >? 0 then pe_request_irq env (pe_irq0 env)
               else 0 in
    if negb (ret =? 0) then probe_fail ret
    else
    let ret := if (pe_irq0 env >? 0) && (pe_irq1 env >? 0)
               then pe_request_irq env (pe_irq1 env) else 0 in
    if negb (ret =? 0) then probe_fail ret
    else
    (* setup channels *)
    let '(ret, chans) :=
      probe_setup_chans env regs chan_mask (seqZ 0 MUC_CHAN_NUM)
        (replicate (Z.to_nat MUC_CHAN_NUM) zero_chan) in
    if negb (ret =? 0) then probe_fail ret
    else
    (* pressure on one channel for self tests to detect bug *)
    let chan_mask :=
      if (Z.land chan_mask (chan_mask - 1) =? 0) || extra_check then 0
      else Z.land chan_mask (not32 (BIT (Z.log2 chan_mask))) in
    let chans := probe_set_slots chan_mask (ReqErr (- EBUSY)) chans in
    (* start sweeper *)
    if pe_kthread_create env <? 0 then probe_fail (pe_kthread_create env)
    (* register algs *)
    else if negb (pe_alg_register env =? 0)
    then probe_fail (pe_alg_register env)
    else
    (* tests done; release all hung channels *)
    let chans := probe_set_slots chan_mask ReqNull chans in
    mk_probe_result 0 (Some (mk_machine regs mem no_dma chans 0 [])).

End Driver.

(** * Specification vocabulary and sample inputs *)

(** ** Key validation *)

(** A four-byte half of a DES key is degenerate when its bytes agree up
    to their parity (least significant) bits. *)
Definition half_degenerate (key : list Z) (off : Z) : Prop :=
  forall i, 1 <= i < 4 -> byte_at key (off + i) / 2 = byte_at key off / 2.

(** The keys [hica_muc_alg_setkey] takes, stated on the key itself. *)
Definition key_supported (alg : Z) (key : list Z) (keylen : Z) : Prop :=
  (alg = MUC_ALG_AES /\ (keylen = 16 \/ keylen = 24 \/ keylen = 32)) \/
  (alg = MUC_ALG_DES /\ keylen = 8 /\
   ~ half_degenerate key 0 /\ ~ half_degenerate key 4) \/
  (alg = MUC_ALG_DES3_EDE /\ keylen = 24).

(** The key-selector bits that go with an algorithm and a key length. *)
Definition key_selector (alg keylen : Z) : Z :=
  if alg =? MUC_ALG_AES
  then (if keylen =? 24 then 1 else if keylen =? 32 then 2 else 0)
  else 0.

(** The four weak and the twelve semi-weak DES keys of FIPS 74 and NIST
    SP 800-67, with odd parity. *)
Definition des_weak_keys : list (list Z) :=
  [ [0x01; 0x01; 0x01; 0x01; 0x01; 0x01; 0x01; 0x01];
    [0xFE; 0xFE; 0xFE; 0xFE; 0xFE; 0xFE; 0xFE; 0xFE];
    [0xE0; 0xE0; 0xE0; 0xE0; 0xF1; 0xF1; 0xF1; 0xF1];
    [0x1F; 0x1F; 0x1F; 0x1F; 0x0E; 0x0E; 0x0E; 0x0E] ].

Definition des_semi_weak_keys : list (list Z) :=
  [ [0x01; 0x1F; 0x01; 0x1F; 0x01; 0x0E; 0x01; 0x0E];
    [0x1F; 0x01; 0x1F; 0x01; 0x0E; 0x01; 0x0E; 0x01];
    [0x01; 0xE0; 0x01; 0xE0; 0x01; 0xF1; 0x01; 0xF1];
    [0xE0; 0x01; 0xE0; 0x01; 0xF1; 0x01; 0xF1; 0x01];
    [0x01; 0xFE; 0x01; 0xFE; 0x01; 0xFE; 0x01; 0xFE];
    [0xFE; 0x01; 0xFE; 0x01; 0xFE; 0x01; 0xFE; 0x01];
    [0x1F; 0xE0; 0x1F; 0xE0; 0x0E; 0xF1; 0x0E; 0xF1];
    [0xE0; 0x1F; 0xE0; 0x1F; 0xF1; 0x0E; 0xF1; 0x0E];
    [0x1F; 0xFE; 0x1F; 0xFE; 0x0E; 0xFE; 0x0E; 0xFE];
    [0xFE; 0x1F; 0xFE; 0x1F; 0xFE; 0x0E; 0xFE; 0x0E];
    [0xE0; 0xFE; 0xE0; 0xFE; 0xF1; 0xFE; 0xF1; 0xFE];
    [0xFE; 0xE0; 0xFE; 0xE0; 0xFE; 0xF1; 0xFE; 0xF1] ].

(** The transform context of [ecb(des)] after [hica_muc_alg_init]. *)
Definition ecb_des_ctx : hica_muc_tfm_ctx :=
  mk_tfm_ctx (mk_ctrl MUC_MODE_ECB MUC_ALG_DES MUC_WIDTH_BLOCK 0)
             8 8 0 (replicate 32 0).


(** ** Probe *)

(** Channel [id] passes the interrupt test when the device latches its
    completion bit of [MUC_INT_CFG] once that is written as 1; it is
    absent when the bit reads back 0 whatever is written. *)
Definition int_ok (env : probe_env) (id : Z) : Prop :=
  forall v, Z.testbit v (8 + id) = true ->
            Z.testbit (pe_int_cfg env v) (8 + id) = true.

Definition int_absent (env : probe_env) (id : Z) : Prop :=
  forall v, Z.testbit (pe_int_cfg env v) (8 + id) = false.

(** Every service call before the channel test succeeds. *)
Definition bringup_ok (env : probe_env) : Prop :=
  pe_kzalloc env = true /\ 0 <= pe_ioremap env /\ 0 <= pe_clk_get env /\
  0 <= pe_rst_get env /\ 0 <= pe_irq0 env /\ pe_algs_alloc env = true /\
  pe_rst_assert env = 0 /\ pe_clk_enable env = 0 /\
  pe_rst_deassert env = 0 /\ pe_state_valid env = true.

(** A device whose ring channels are all fused off, and one that is
    complete; every service call succeeds. *)
Definition slow_only_env : probe_env :=
  mk_probe_env true 0 2 0 75 0 true 0 0 0 true
    (fun v => Z.land v (Z.lor (BIT 8) (Z.lor (BIT 30) (BIT 31))))
    (fun _ => 0) (fun n => Some (replicate (Z.to_nat n) 0))
    (fun id _ => Some (0x80000 + 0x1000 * id)) 0 0.

Definition dead_env : probe_env :=
  mk_probe_env true 0 2 0 75 0 true 0 0 0 true
    (fun v => Z.land v (Z.lor (BIT 30) (BIT 31)))
    (fun _ => 0) (fun n => Some (replicate (Z.to_nat n) 0))
    (fun id _ => Some (0x80000 + 0x1000 * id)) 0 0.

Definition full_env : probe_env :=
  mk_probe_env true 0 2 0 75 0 true 0 0 0 true
    (fun v => v)
    (fun _ => 0) (fun n => Some (replicate (Z.to_nat n) 0))
    (fun id _ => Some (0x80000 + 0x1000 * id)) 0 0.

(** ** Channel allocator *)

(** Two request structures are the same request when they name the same
    transform, buffers and length; the driver only updates the request
    context and the IV. *)
Definition same_request (r req : skcipher_request) : Prop :=
  rq_tfm r = rq_tfm req /\ rq_src r = rq_src req /\
  rq_dst r = rq_dst req /\ rq_cryptlen r = rq_cryptlen req.


(** Sample transforms: [ecb(aes)], [cbc(aes)] and [cfb(aes)] with a
    128-bit key set, then [ecb(des)] without a key. *)
Definition sample_key : list Z := seqZ 1 16 ++ replicate 16 0.

Definition sample_tfms (p : nat) : hica_muc_tfm_ctx :=
  match p with
  | 0%nat => mk_tfm_ctx (mk_ctrl MUC_MODE_ECB MUC_ALG_AES MUC_WIDTH_BLOCK 0)
                        16 16 16 sample_key
  | 1%nat => mk_tfm_ctx (mk_ctrl MUC_MODE_CBC MUC_ALG_AES MUC_WIDTH_BLOCK 0)
                        16 16 16 sample_key
  | 2%nat => mk_tfm_ctx (mk_ctrl MUC_MODE_CFB MUC_ALG_AES MUC_WIDTH_BLOCK 0)
                        16 16 16 sample_key
  | _ => ecb_des_ctx
  end.

(** A fresh request on transform [p]: [len] bytes in one scatterlist
    entry at [0x4000] for the source and one at [0x8000] for the
    destination, the IV [1 .. 16]. *)
Definition sample_req (p : nat) (len : Z) : skcipher_request :=
  mk_req p [mk_sg 0x4000 0x4000 len] [mk_sg 0x8000 0x8000 len] len
         (seqZ 1 16)
         (mk_req_ctx 0 false 0 0 false 0 0 (mk_iter [] 0 0) (mk_iter [] 0 0)).

(** The device as probe leaves it on complete hardware. *)
Definition idle_machine : machine :=
  default (mk_machine ∅ ∅ false [] 0 [])
          (pr_dev (hica_muc_probe false 256 [] full_env ∅ ∅)).


(** What a channel keeps across an operation: its number, its dirty flag
    and its request slot. *)
Definition chan_frame (c' c : hica_muc_chan) : Prop :=
  ch_id c' = ch_id c /\ ch_dirty c' = ch_dirty c /\ ch_req c' = ch_req c.


(** ** Erasure *)

(** [a] is one of the words of the [len] bytes of registers at [base]. *)
Definition reg_words (base len : Z) (a : Z) : Prop :=
  exists k, 0 <= 4 * k < len /\ a = base + 4 * k.




(** ** Descriptor rings *)








(** ** Ring channel push *)



(** ** Ring pointer check *)






(** * Properties *)

(** ** Key validation *)

Lemma shiftr_lxor_half a b :
  (Z.shiftr (Z.lxor a b) 1 =? 0) = (a / 2 =? b / 2).
Proof.
  rewrite Z.shiftr_lxor, !Z.shiftr_div_pow2 by lia.
  change (2 ^ 1) with 2.
  destruct (Z.eqb_spec (a / 2) (b / 2)) as [E | E].
  - rewrite E, Z.lxor_nilpotent. reflexivity.
  - apply Z.eqb_neq. intros H. apply E. now apply Z.lxor_eq.
Qed.

Lemma weakkey_half_spec key off :
  0 <= off ->
  des_check_weakkey_half (drop (Z.to_nat off) key) <> 0
  <-> half_degenerate key off.
Proof.
  intros Hoff.
  assert (Hb : forall i, 0 <= i ->
            byte_at (drop (Z.to_nat off) key) i = byte_at key (off + i)).
  { intros i Hi. unfold byte_at. rewrite lookup_drop.
    replace (Z.to_nat off + Z.to_nat i)%nat with (Z.to_nat (off + i)) by lia.
    reflexivity. }
  unfold des_check_weakkey_half, half_degenerate.
  change (seqZ 1 (DES_KEY_SIZE / 2 - 1)) with [1; 2; 3].
  cbn [forallb]. rewrite !shiftr_lxor_half, !Hb by lia.
  replace (off + 0) with off by lia.
  split.
  - intros H i Hi.
    destruct (Z.eqb_spec (byte_at key (off + 1) / 2) (byte_at key off / 2));
    destruct (Z.eqb_spec (byte_at key (off + 2) / 2) (byte_at key off / 2));
    destruct (Z.eqb_spec (byte_at key (off + 3) / 2) (byte_at key off / 2));
      cbn in H; try (exfalso; apply H; reflexivity).
    assert (i = 1 \/ i = 2 \/ i = 3) as [-> | [-> | ->]] by lia; assumption.
  - intros H.
    rewrite (proj2 (Z.eqb_eq _ _) (H 1 ltac:(lia))),
            (proj2 (Z.eqb_eq _ _) (H 2 ltac:(lia))),
            (proj2 (Z.eqb_eq _ _) (H 3 ltac:(lia))).
    cbn. unfold EINVAL. lia.
Qed.

Lemma weakkey_spec key :
  des_check_weakkey key = 0
  <-> ~ half_degenerate key 0 /\ ~ half_degenerate key 4.
Proof.
  pose proof (weakkey_half_spec key 0 ltac:(lia)) as H0.
  pose proof (weakkey_half_spec key 4 ltac:(lia)) as H4.
  change (drop (Z.to_nat 0) key) with key in H0.
  unfold des_check_weakkey.
  change (Z.to_nat (DES_KEY_SIZE / 2)) with (Z.to_nat 4).
  destruct (Z.eqb_spec (des_check_weakkey_half key) 0) as [E | E]; cbn [negb].
  - split.
    + intros H. split; [rewrite <- H0 | rewrite <- H4]; tauto.
    + intros [_ H]. rewrite <- H4 in H.
      destruct (Z.eq_dec
        (des_check_weakkey_half (drop (Z.to_nat 4) key)) 0); tauto.
  - split; [tauto |]. intros [H _]. rewrite <- H0 in H. tauto.
Qed.

Lemma store_bytes_prefix (buf bytes : list Z) :
  (length bytes <= length buf)%nat ->
  store_bytes buf 0 bytes = bytes ++ drop (length bytes) buf.
Proof.
  intros H. unfold store_bytes. change (Z.to_nat 0) with 0%nat.
  rewrite <- (take_drop (length bytes) buf) at 1.
  apply list_inserts_0_r. rewrite length_take. lia.
Qed.

Lemma key_selector_lookup alg keylen :
  (alg = MUC_ALG_AES /\ (keylen = 16 \/ keylen = 24 \/ keylen = 32)) \/
  (alg = MUC_ALG_DES /\ keylen = 8) \/
  (alg = MUC_ALG_DES3_EDE /\ keylen = 24) ->
  hica_muc_ctrl_key_lookup alg keylen = key_selector alg keylen.
Proof.
  intros [[-> [-> | [-> | ->]]] | [[-> ->] | [-> ->]]]; reflexivity.
Qed.

(** C7, as amended.  [hica_muc_alg_setkey], which works on the transform
    context alone and touches no register, accepts exactly the supported
    keys: a 16, 24 or 32 byte AES key, a 24 byte triple-DES key, and an
    8 byte DES key neither half of which is degenerate.  It then records
    the key copy, the key size and the key-selector bits.  Every other
    key is rejected with [-EINVAL] and leaves the context as it was. *)
Theorem setkey_validation (ctx : hica_muc_tfm_ctx) (key : list Z)
    (keylen : Z) :
  length key = Z.to_nat keylen -> 0 <= keylen ->
  length (t_key ctx) = 32%nat ->
  (key_supported (c_alg (t_ctrl ctx)) key keylen ->
   hica_muc_alg_setkey ctx key keylen =
     (0, set_t_key ctx (key_selector (c_alg (t_ctrl ctx)) keylen)
           (key ++ drop (Z.to_nat keylen) (t_key ctx)) keylen)) /\
  (~ key_supported (c_alg (t_ctrl ctx)) key keylen ->
   hica_muc_alg_setkey ctx key keylen = (- EINVAL, ctx)).
Proof.
  intros Hlen Hpos Hbuf.
  assert (Hcopy : keylen <= 32 ->
            store_bytes (t_key ctx) 0 (take (Z.to_nat keylen) key)
            = key ++ drop (Z.to_nat keylen) (t_key ctx)).
  { intros Hle. rewrite take_ge by lia.
    rewrite store_bytes_prefix by lia. now rewrite Hlen. }
  pose proof (weakkey_spec key) as Hweak.
  unfold hica_muc_alg_setkey, key_supported, aes_check_keylen.
  unfold MUC_KEY_SIZE, AES_KEYSIZE_128, AES_KEYSIZE_192, AES_KEYSIZE_256,
    DES_KEY_SIZE, DES3_EDE_KEY_SIZE, MUC_ALG_AES, MUC_ALG_DES,
    MUC_ALG_DES3_EDE in *.
  set (alg := c_alg (t_ctrl ctx)).
  split.
  - intros Hsup.
    assert (Hle : keylen <= 32) by (destruct Hsup as [H | [H | H]]; lia).
    rewrite <- (key_selector_lookup alg keylen), Hcopy by
      (try assumption; unfold MUC_ALG_AES, MUC_ALG_DES, MUC_ALG_DES3_EDE;
       tauto).
    destruct (Z.gtb_spec keylen 32); [lia |].
    destruct Hsup as [[Ha Hk] | [[Ha [Hk Hw]] | [Ha Hk]]]; rewrite Ha.
    + destruct Hk as [-> | [-> | ->]]; reflexivity.
    + rewrite Hk. apply Hweak in Hw. rewrite Hw. reflexivity.
    + rewrite Hk. reflexivity.
  - intros Hnot.
    destruct (Z.gtb_spec keylen 32); [reflexivity |].
    destruct (Z.eqb_spec alg 2) as [Ha | Ha].
    { destruct (Z.eqb_spec keylen 16); [exfalso; apply Hnot; tauto |].
      destruct (Z.eqb_spec keylen 24); [exfalso; apply Hnot; tauto |].
      destruct (Z.eqb_spec keylen 32); [exfalso; apply Hnot; tauto |].
      reflexivity. }
    destruct (Z.eqb_spec alg 0) as [Hd | Hd].
    { destruct (Z.eqb_spec keylen 8) as [Hk | Hk]; [| reflexivity].
      destruct (Z.eqb_spec (des_check_weakkey key) 0) as [Hw | Hw];
        [| reflexivity].
      exfalso. apply Hnot. right. left. tauto. }
    destruct (Z.eqb_spec alg 1) as [Ht | Ht]; [| reflexivity].
    destruct (Z.eqb_spec keylen 24); [| reflexivity].
    exfalso. apply Hnot. tauto.
Qed.

(** The four weak keys are among the rejected ones. *)
Lemma weak_keys_rejected :
  Forall (fun k => hica_muc_alg_setkey ecb_des_ctx k 8
                   = (- EINVAL, ecb_des_ctx)) des_weak_keys.
Proof. repeat constructor. Qed.

(** None of the twelve semi-weak keys is rejected. *)
Lemma semi_weak_keys_accepted :
  Forall (fun k => (hica_muc_alg_setkey ecb_des_ctx k 8).1 = 0)
         des_semi_weak_keys.
Proof. repeat constructor. Qed.

(** An accepted AES-256 key and a rejected 20-byte one. *)
Lemma setkey_validation_witness :
  hica_muc_alg_setkey
    (mk_tfm_ctx (mk_ctrl MUC_MODE_CBC MUC_ALG_AES MUC_WIDTH_BLOCK 0)
                16 16 0 (replicate 32 0))
    (seqZ 1 32) 32
  = (0, mk_tfm_ctx (mk_ctrl MUC_MODE_CBC MUC_ALG_AES MUC_WIDTH_BLOCK 2)
                   16 16 32 (seqZ 1 32)) /\
  hica_muc_alg_setkey
    (mk_tfm_ctx (mk_ctrl MUC_MODE_CBC MUC_ALG_AES MUC_WIDTH_BLOCK 0)
                16 16 0 (replicate 32 0))
    (seqZ 1 20) 20
  = (- EINVAL,
     mk_tfm_ctx (mk_ctrl MUC_MODE_CBC MUC_ALG_AES MUC_WIDTH_BLOCK 0)
                16 16 0 (replicate 32 0)).
Proof.
  split.
  - apply (setkey_validation
             (mk_tfm_ctx (mk_ctrl MUC_MODE_CBC MUC_ALG_AES MUC_WIDTH_BLOCK 0)
                         16 16 0 (replicate 32 0))
             (seqZ 1 32) 32); [reflexivity | lia | reflexivity |].
    left. split; [reflexivity | lia].
  - apply (setkey_validation
             (mk_tfm_ctx (mk_ctrl MUC_MODE_CBC MUC_ALG_AES MUC_WIDTH_BLOCK 0)
                         16 16 0 (replicate 32 0))
             (seqZ 1 20) 20); [reflexivity | lia | reflexivity |].
    unfold key_supported, MUC_ALG_AES, MUC_ALG_DES, MUC_ALG_DES3_EDE.
    cbn. lia.
Defined.

(** C7 as stated fails both ways: the semi-weak key 01FE 01FE 01FE 01FE
    is accepted, and the key 0101 0101 2345 6789, which is neither weak
    nor semi-weak and has a supported length, is rejected. *)
Lemma setkey_semi_weak_counterexample :
  In [0x01; 0xFE; 0x01; 0xFE; 0x01; 0xFE; 0x01; 0xFE] des_semi_weak_keys /\
  (hica_muc_alg_setkey ecb_des_ctx
     [0x01; 0xFE; 0x01; 0xFE; 0x01; 0xFE; 0x01; 0xFE] 8).1 = 0 /\
  ~ In [0x01; 0x01; 0x01; 0x01; 0x23; 0x45; 0x67; 0x89]
       (des_weak_keys ++ des_semi_weak_keys) /\
  (hica_muc_alg_setkey ecb_des_ctx
     [0x01; 0x01; 0x01; 0x01; 0x23; 0x45; 0x67; 0x89] 8).1 = - EINVAL.
Proof.
  split; [cbn; tauto |]. split; [reflexivity |]. split; [| reflexivity].
  cbn. intros H. repeat (destruct H as [H | H]; [discriminate H |]).
  exact H.
Qed.

(** ** Registers and bits *)

Lemma readl_writel_eq v a regs : readl (writel v a regs) a = u32 v.
Proof. unfold readl, writel. now rewrite lookup_insert_eq. Qed.

Lemma readl_writel_ne v a b regs :
  a <> b -> readl (writel v a regs) b = readl regs b.
Proof. intros H. unfold readl, writel. now rewrite lookup_insert_ne. Qed.

Lemma testbit_BIT n i : 0 <= n -> Z.testbit (BIT n) i = (i =? n).
Proof.
  intros Hn. unfold BIT.
  destruct (Z.ltb_spec i 0) as [Hi | Hi].
  - rewrite Z.testbit_neg_r by lia. symmetry. apply Z.eqb_neq. lia.
  - rewrite Z.shiftl_spec by lia.
    destruct (Z.eqb_spec i n) as [-> | Hne].
    + now rewrite Z.sub_diag.
    + destruct (Z.ltb_spec i n).
      * apply Z.testbit_neg_r. lia.
      * apply Z.bits_above_log2; [lia |]. change (Z.log2 1) with 0. lia.
Qed.

Lemma land_BIT_eqb v n :
  0 <= n -> (Z.land v (BIT n) =? 0) = negb (Z.testbit v n).
Proof.
  intros Hn.
  destruct (Z.testbit v n) eqn:Hb; cbn [negb].
  - apply Z.eqb_neq. intros H.
    assert (Hc : Z.testbit (Z.land v (BIT n)) n = false)
      by (rewrite H; apply Z.bits_0).
    rewrite Z.land_spec, Hb, testbit_BIT, Z.eqb_refl in Hc by lia.
    discriminate.
  - apply Z.eqb_eq. apply Z.bits_inj'. intros i Hi.
    rewrite Z.land_spec, testbit_BIT, Z.bits_0 by lia.
    destruct (Z.eqb_spec i n) as [-> | ?]; [now rewrite Hb |].
    apply andb_false_r.
Qed.

Lemma testbit_u32 x i : 0 <= i < 32 -> Z.testbit (u32 x) i = Z.testbit x i.
Proof. intros H. unfold u32. apply Z.mod_pow2_bits_low. lia. Qed.

(** ** Probe *)

Lemma disable_mask_In (disable : list Z) (id : Z) :
  0 <= id < 32 -> In id disable ->
  Z.testbit (probe_disable_mask disable) id = true.
Proof.
  intros Hid. unfold probe_disable_mask.
  assert (Hkeep : forall l acc, Z.testbit acc id = true ->
            Z.testbit (foldl (fun mask d => Z.lor mask (u32 (BIT d))) acc l)
                      id = true).
  { induction l as [| d l IH]; intros acc Hacc; cbn [foldl]; [exact Hacc |].
    apply IH. rewrite Z.lor_spec, Hacc. reflexivity. }
  generalize 0 as acc.
  induction disable as [| d l IH]; intros acc Hin; [destruct Hin |].
  cbn [foldl]. destruct Hin as [-> | Hin]; [| now apply IH].
  apply Hkeep. rewrite Z.lor_spec, testbit_u32, testbit_BIT by lia.
  rewrite Z.eqb_refl. apply orb_true_r.
Qed.

Lemma chan_mask_none val dm :
  (forall id, 0 <= id < 8 ->
     Z.testbit val (8 + id) = false \/ Z.testbit dm id = true) ->
  probe_chan_mask val dm = 0.
Proof.
  intros H. unfold probe_chan_mask, MUC_INT_CHANn_OUT_BUF.
  change (seqZ 0 MUC_CHAN_NUM) with [0; 1; 2; 3; 4; 5; 6; 7].
  cbn [foldl]. rewrite !land_BIT_eqb by lia.
  assert (Hc : forall id, 0 <= id < 8 ->
            negb (negb (Z.testbit val (8 + id))) && negb (Z.testbit dm id)
            = false).
  { intros id Hid. destruct (H id Hid) as [E | E]; rewrite E;
      [reflexivity | apply andb_false_r]. }
  rewrite !Hc by lia.
  reflexivity.
Qed.

Lemma chan_mask_slow_only val dm :
  Z.testbit val 8 = true -> Z.testbit dm 0 = false ->
  (forall id, 1 <= id < 8 -> Z.testbit val (8 + id) = false) ->
  probe_chan_mask val dm = BIT MUC_CHAN_PKG1.
Proof.
  intros H0 Hd H. unfold probe_chan_mask, MUC_INT_CHANn_OUT_BUF.
  change (seqZ 0 MUC_CHAN_NUM) with [0; 1; 2; 3; 4; 5; 6; 7].
  cbn [foldl]. rewrite !land_BIT_eqb by lia.
  change (8 + 0) with 8. rewrite H0, Hd.
  rewrite !H by lia. reflexivity.
Qed.

Ltac probe_early_step :=
  match goal with
  | |- pr_ret (if ?c then probe_fail ?x else _) <> 0 /\ _ =>
      let E := fresh "E" in
      destruct c eqn:E;
      [ cbn [probe_fail pr_ret pr_dev];
        rewrite ?negb_true_iff in E;
        try (apply Z.ltb_lt in E); try (apply Z.eqb_neq in E);
        split; [ unfold ENOMEM, ENODEV; try lia; try assumption
               | split; [ reflexivity
                        | unfold bringup_ok; intros (?&?&?&?&?&?&?&?&?&?); exfalso;
                          first [ lia | congruence ] ] ]
      | rewrite ?negb_false_iff in E;
        try (apply Z.ltb_ge in E); try (apply Z.eqb_eq in E) ]
  end.

(** C9.  Probe fails, and hands no device to the driver core, when no
    channel passes the interrupt test (each one is absent from the
    read-back of [MUC_INT_CFG] or admin-disabled), and also when the slow
    channel alone passes and no channel was admin-disabled.  When every
    service call before the channel test succeeds, the first case
    returns [-ENODEV] and the second [-EINVAL]. *)
Theorem probe_refuses_unusable (extra_check : bool) (small_request : Z)
    (disable : list Z) (env : probe_env) (regs mem : gmap Z Z) :
  let r := hica_muc_probe extra_check small_request disable env regs mem in
  ((forall id, 0 <= id < 8 -> int_absent env id \/ In id disable) ->
   pr_ret r <> 0 /\ pr_dev r = None /\
   (bringup_ok env -> pr_ret r = - ENODEV)) /\
  (int_ok env 0 -> (forall id, 1 <= id < 8 -> int_absent env id) ->
   disable = [] ->
   pr_ret r <> 0 /\ pr_dev r = None /\
   (bringup_ok env -> pr_ret r = - EINVAL)).
Proof.
  intros r. subst r. split.
  - intros Hnone. unfold hica_muc_probe.
    do 10 probe_early_step.
    rewrite readl_writel_eq.
    rewrite chan_mask_none.
    { cbn. unfold ENODEV. repeat split; lia. }
    intros id Hid. rewrite testbit_u32 by lia.
    destruct (Hnone id Hid) as [Ha | Hd].
    + left. apply Ha.
    + right. apply disable_mask_In; [lia | exact Hd].
  - intros Hslow Hrings ->. unfold hica_muc_probe.
    do 10 probe_early_step.
    rewrite readl_writel_eq.
    rewrite chan_mask_slow_only.
    { change (BIT MUC_CHAN_PKG1) with 1. cbn. unfold EINVAL. repeat split; lia. }
    + rewrite testbit_u32 by lia. apply (Hslow _).
      change (8 + 0) with 8. rewrite testbit_u32 by lia.
      unfold MUC_INT_CHAN0_DATA_DISPOSE.
      rewrite !Z.lor_spec, (testbit_BIT 8 8) by lia.
      rewrite Z.eqb_refl, orb_true_r. reflexivity.
    + reflexivity.
    + intros id Hid. rewrite testbit_u32 by lia. apply Hrings. exact Hid.
Qed.

(** A device with the slow channel only is refused with [-EINVAL], and
    one with no channel at all with [-ENODEV]. *)
Lemma probe_refuses_unusable_witness :
  hica_muc_probe false 256 [] dead_env ∅ ∅ = probe_fail (- ENODEV) /\
  hica_muc_probe false 256 [] slow_only_env ∅ ∅ = probe_fail (- EINVAL).
Proof.
  assert (Hland : forall v m i, Z.testbit m i = false ->
                    Z.testbit (Z.land v m) i = false).
  { intros v m i Hm. rewrite Z.land_spec, Hm. apply andb_false_r. }
  assert (Hids : forall id, 0 <= id < 8 ->
            id = 0 \/ id = 1 \/ id = 2 \/ id = 3 \/ id = 4 \/ id = 5 \/
            id = 6 \/ id = 7) by (intros; lia).
  pose proof (probe_refuses_unusable false 256 [] dead_env ∅ ∅) as [Hd _].
  pose proof (probe_refuses_unusable false 256 [] slow_only_env ∅ ∅)
    as [_ Hs].
  split.
  - destruct Hd as (_ & Hdev & Hret).
    + intros id Hid. left. intros v. apply Hland.
      destruct (Hids id Hid) as [-> | [-> | [-> | [-> | [-> | [-> | [-> | ->]]]]]]];
        reflexivity.
    + destruct (hica_muc_probe false 256 [] dead_env ∅ ∅) as [ret dev].
      cbn in Hdev, Hret. rewrite Hdev, Hret; [reflexivity |].
      unfold bringup_ok. cbn. repeat split; lia.
  - destruct Hs as (_ & Hdev & Hret).
    + intros v Hv. cbn. rewrite Z.land_spec, Hv. reflexivity.
    + intros id Hid v. apply Hland.
      destruct (Hids id ltac:(lia)) as [-> | [-> | [-> | [-> | [-> | [-> | [-> | ->]]]]]]];
        try lia; reflexivity.
    + reflexivity.
    + destruct (hica_muc_probe false 256 [] slow_only_env ∅ ∅) as [ret dev].
      cbn in Hdev, Hret. rewrite Hdev, Hret; [reflexivity |].
      unfold bringup_ok. cbn. repeat split; lia.
Defined.

(** On a complete device probe succeeds and all channels come up idle. *)
Example probe_full_device :
  match pr_dev (hica_muc_probe false 256 [] full_env ∅ ∅) with
  | Some m => m_no_dma m = false /\
              Forall (fun c => ch_req c = ReqNull) (m_chans m) /\
              length (m_chans m) = 8%nat
  | None => False
  end.
Proof. vm_compute. repeat constructor. Qed.

(** ** Prepare *)

Lemma sg_nents_loop_range sg len nents total :
  0 <= nents ->
  sg_nents_loop sg len nents total = - EINVAL \/
  0 < sg_nents_loop sg len nents total.
Proof.
  revert nents total. induction sg as [| s sg IH]; intros nents total Hn.
  - left. reflexivity.
  - cbn [sg_nents_loop]. destruct (total + sg_length s >=? len).
    + right. lia.
    + apply IH. lia.
Qed.

Lemma sg_nents_for_len_range sg len :
  sg_nents_for_len sg len = - EINVAL \/ 0 <= sg_nents_for_len sg len.
Proof.
  unfold sg_nents_for_len. destruct (len =? 0); [right; lia |].
  destruct (sg_nents_loop_range sg len 0 0 ltac:(lia)); [tauto | right; lia].
Qed.

Lemma prepare_n_cases dma_map_sg tfms s ret s' :
  _hica_muc_chan_prepare_n dma_map_sg tfms s = (ret, s') ->
  (ret = 0 /\ chan_frame (cs_chan s') (cs_chan s) /\
   same_request (cs_req s') (cs_req s) /\ cs_mem s' = cs_mem s) \/
  ((ret = - EINVAL \/ ret = - EIO) /\ s' = s).
Proof.
  unfold _hica_muc_chan_prepare_n.
  destruct (sg_nents_for_len_range (rq_src (cs_req s))
                                   (rq_cryptlen (cs_req s))) as [Hs | Hs].
  { rewrite Hs. cbn. intros [= <- <-]. right. tauto. }
  destruct (Z.ltb_spec (sg_nents_for_len (rq_src (cs_req s))
                                         (rq_cryptlen (cs_req s))) 0);
    [lia |].
  destruct (negb (bool_decide (rq_src (cs_req s) = rq_dst (cs_req s))) &&
            (sg_nents_for_len (rq_dst (cs_req s)) (rq_cryptlen (cs_req s))
             <? 0)) eqn:Hd.
  { apply andb_true_iff in Hd as [_ Hd]. apply Z.ltb_lt in Hd.
    destruct (sg_nents_for_len_range (rq_dst (cs_req s))
                                     (rq_cryptlen (cs_req s))); [| lia].
    intros [= <- <-]. right. tauto. }
  destruct (_ <=? 0); [intros [= <- <-]; right; tauto |].
  destruct (_ <=? 0); [intros [= <- <-]; right; tauto |].
  intros [= <- <-]. left. split; [reflexivity |].
  unfold chan_frame, same_request. cbn.
  destruct (negb (c_mode _ =? _)); cbn; tauto.
Qed.

Lemma prepare_0_cases tfms s :
  exists s', _hica_muc_chan_prepare_0 tfms s = (0, s') /\
             chan_frame (cs_chan s') (cs_chan s) /\
             same_request (cs_req s') (cs_req s).
Proof.
  unfold _hica_muc_chan_prepare_0.
  destruct (scatterwalk_map_and_copy _ _ _ _ _ _) as [inout mem].
  eexists. split; [reflexivity |].
  unfold chan_frame, same_request. cbn. tauto.
Qed.

Lemma prepare_cases dma_map_sg tfms s ret s' :
  hica_muc_chan_prepare dma_map_sg tfms s = (ret, s') ->
  (ret = 0 /\ chan_frame (cs_chan s') (cs_chan s) /\
   same_request (cs_req s') (cs_req s)) \/
  ((ret = - EINVAL \/ ret = - EIO) /\ s' = s /\
   ch_id (cs_chan s) <> MUC_CHAN_PKG1).
Proof.
  unfold hica_muc_chan_prepare.
  destruct (Z.eqb_spec (ch_id (cs_chan s)) MUC_CHAN_PKG1) as [E | E].
  - destruct (prepare_0_cases tfms s) as (s0 & -> & Hc & Hr).
    cbn. intros [= <- <-]. left. cbn. tauto.
  - destruct (_hica_muc_chan_prepare_n dma_map_sg tfms s) as [r sn] eqn:Hp.
    apply prepare_n_cases in Hp
      as [(-> & Hc & Hr & _) | ([-> | ->] & ->)]; cbn.
    + intros [= <- <-]. left. cbn. tauto.
    + intros [= <- <-]. right. tauto.
    + intros [= <- <-]. right. tauto.
Qed.

(** ** Channel allocator *)



Lemma chan_at_put_eq chans id c :
  0 <= id -> (Z.to_nat id < length chans)%nat ->
  chan_at (chan_put chans id c) id = c.
Proof.
  intros Hid Hlen. unfold chan_at, chan_put.
  now rewrite list_lookup_insert_eq.
Qed.

Lemma chan_at_put_ne chans id j c :
  0 <= id -> 0 <= j -> j <> id ->
  chan_at (chan_put chans id c) j = chan_at chans j.
Proof.
  intros Hid Hj Hne. unfold chan_at, chan_put.
  rewrite list_lookup_insert_ne by lia. reflexivity.
Qed.



Lemma set_ch_req_frame c' c p :
  chan_frame c' (set_ch_req c p) ->
  ch_id c' = ch_id c /\ ch_dirty c' = ch_dirty c.
Proof. unfold chan_frame. cbn. tauto. Qed.





(** ** Failure at prepare time *)






(** ** What the channel operations leave alone *)

Lemma chan_frame_refl c : chan_frame c c.
Proof. unfold chan_frame. tauto. Qed.

Lemma same_request_refl r : same_request r r.
Proof. unfold same_request. tauto. Qed.

Lemma iv_get_same tfms chan req regs :
  same_request (hica_muc_chan_iv_get tfms chan req regs) req /\
  rq_ctx (hica_muc_chan_iv_get tfms chan req regs) = rq_ctx req.
Proof.
  unfold hica_muc_chan_iv_get, same_request.
  destruct (_ =? _); cbn; tauto.
Qed.

Ltac head_if :=
  match goal with
  | |- context [snd (if ?c then _ else _)] => destruct c
  | |- context [snd (let '(_, _) := ?p in _)] => destruct p
  end.

Lemma push_0_frame tfms s :
  chan_frame (cs_chan (_hica_muc_chan_push_0 tfms s).2) (cs_chan s) /\
  same_request (cs_req (_hica_muc_chan_push_0 tfms s).2) (cs_req s).
Proof.
  unfold _hica_muc_chan_push_0. cbv zeta.
  repeat head_if; cbn; unfold chan_frame, same_request; cbn; tauto.
Qed.

Lemma push_n_set_buffers_frame tfms src_todo dst_todo src_i dst_i dst_n s :
  chan_frame (cs_chan (push_n_set_buffers tfms src_todo dst_todo src_i dst_i
                                          dst_n s).2) (cs_chan s) /\
  same_request (cs_req (push_n_set_buffers tfms src_todo dst_todo src_i
                                           dst_i dst_n s).2) (cs_req s).
Proof.
  unfold push_n_set_buffers. cbv zeta.
  repeat head_if; cbn; unfold chan_frame, same_request; cbn; tauto.
Qed.

Lemma push_n_fill_frame extra_check tfms src_todo dst_todo dst_n s :
  chan_frame (cs_chan (push_n_fill extra_check tfms src_todo dst_todo
                                   dst_n s).2) (cs_chan s) /\
  same_request (cs_req (push_n_fill extra_check tfms src_todo dst_todo
                                    dst_n s).2) (cs_req s).
Proof.
  unfold push_n_fill. cbv zeta.
  repeat head_if;
    try (cbn; split; [apply chan_frame_refl | apply same_request_refl]).
  apply (push_n_set_buffers_frame tfms src_todo dst_todo _ _ dst_n
                                  (with_regs s _)).
Qed.

Lemma push_n_frame extra_check tfms s :
  chan_frame (cs_chan (_hica_muc_chan_push_n extra_check tfms s).2)
             (cs_chan s) /\
  same_request (cs_req (_hica_muc_chan_push_n extra_check tfms s).2)
               (cs_req s).
Proof.
  pose proof (iv_get_same tfms (cs_chan s)
    (set_rq_ctx (cs_req s) (set_rc_eof (rq_ctx (cs_req s)) true))
    (cs_regs s)) as [Hiv _].
  unfold _hica_muc_chan_push_n. cbv zeta.
  repeat head_if;
    try (cbn; unfold chan_frame, same_request in *; cbn in *; tauto).
  - match goal with
    | |- context [push_n_fill ?e ?t ?a ?b ?n ?s0] =>
        pose proof (push_n_fill_frame e t a b n s0) as [Hc Hr]
    end.
    unfold chan_frame, same_request in *. cbn in *. 
    repeat split; try tauto; etransitivity; try apply Hr; apply Hiv.
  - apply push_n_fill_frame.
Qed.

Lemma emit_frame chan regs :
  chan_frame (hica_muc_chan_emit chan regs).1 chan.
Proof.
  unfold hica_muc_chan_emit, _hica_muc_chan_emit_n, chan_frame.
  destruct (negb (ch_dirty chan)); [tauto |].
  destruct (ch_id chan =? MUC_CHAN_PKG1); cbn; tauto.
Qed.

Lemma unprepare_0_frame tfms no_output s :
  chan_frame (cs_chan (_hica_muc_chan_unprepare_0 tfms no_output s))
             (cs_chan s) /\
  same_request (cs_req (_hica_muc_chan_unprepare_0 tfms no_output s))
               (cs_req s).
Proof.
  unfold _hica_muc_chan_unprepare_0. cbv zeta.
  destruct no_output; cbn [negb].
  - cbn. split; [unfold chan_frame; cbn; tauto | apply same_request_refl].
  - destruct (scatterwalk_map_and_copy _ _ _ _ _ _) as [b mem'].
    cbn. split; [unfold chan_frame; cbn; tauto | apply iv_get_same].
Qed.

Lemma unprepare_n_frame tfms no_output s :
  chan_frame (cs_chan (_hica_muc_chan_unprepare_n tfms no_output s))
             (cs_chan s) /\
  cs_req (_hica_muc_chan_unprepare_n tfms no_output s) = cs_req s.
Proof.
  unfold _hica_muc_chan_unprepare_n. cbv zeta.
  destruct (negb _); cbn; split; try reflexivity; unfold chan_frame; cbn;
    tauto.
Qed.

Lemma unprepare_frame tfms no_output s :
  chan_frame (cs_chan (hica_muc_chan_unprepare tfms no_output s)) (cs_chan s)
  /\ same_request (cs_req (hica_muc_chan_unprepare tfms no_output s))
                  (cs_req s).
Proof.
  unfold hica_muc_chan_unprepare. cbv zeta.
  set (s1 := if negb (t_keysize _ =? 0) then _ else s).
  assert (H1 : cs_chan s1 = cs_chan s /\ cs_req s1 = cs_req s)
    by (subst s1; destruct (negb _); cbn; tauto).
  destruct H1 as [H1c H1r].
  set (s2 := if ch_id (cs_chan s) =? MUC_CHAN_PKG1 then _ else _).
  assert (H2 : chan_frame (cs_chan s2) (cs_chan s) /\
               same_request (cs_req s2) (cs_req s)).
  { subst s2. rewrite <- H1c, <- H1r.
    destruct (ch_id (cs_chan s1) =? MUC_CHAN_PKG1).
    - apply unprepare_0_frame.
    - destruct (unprepare_n_frame tfms no_output s1) as [Hc ->].
      split; [exact Hc | apply same_request_refl]. }
  destruct (negb (c_mode _ =? MUC_MODE_ECB)); cbn; exact H2.
Qed.

(** ** The dirty flag *)

Lemma push_dirty_noop extra_check tfms s :
  ch_dirty (cs_chan s) = true ->
  hica_muc_chan_push extra_check tfms s = (- EBUSY, s).
Proof. intros H. unfold hica_muc_chan_push. now rewrite H. Qed.

Lemma push_clean_sets extra_check tfms s :
  ch_dirty (cs_chan s) = false ->
  let (ret, s') := hica_muc_chan_push extra_check tfms s in
  ch_dirty (cs_chan s') = true <-> ret = - EINPROGRESS.
Proof.
  intros H. unfold hica_muc_chan_push. rewrite H.
  assert (Hf : forall p : Z * chan_state,
            chan_frame (cs_chan p.2) (cs_chan s) ->
            let (ret, s') :=
              (let '(ret, s0) := p in
               if ret =? - EINPROGRESS
               then (ret, with_chan s0 (set_ch_dirty (cs_chan s0) true))
               else (ret, s0)) in
            ch_dirty (cs_chan s') = true <-> ret = - EINPROGRESS).
  { intros [ret s0] (_ & Hd & _). cbn [snd] in Hd.
    destruct (Z.eqb_spec ret (- EINPROGRESS)) as [E | E]; cbn.
    - tauto.
    - rewrite Hd, H. split; [discriminate | contradiction]. }
  destruct (ch_id (cs_chan s) =? MUC_CHAN_PKG1).
  - apply Hf, push_0_frame.
  - apply Hf, push_n_frame.
Qed.

(** A push never clears the flag and leaves number and slot alone. *)
Lemma push_keeps extra_check tfms s :
  let s' := (hica_muc_chan_push extra_check tfms s).2 in
  ch_id (cs_chan s') = ch_id (cs_chan s) /\
  ch_req (cs_chan s') = ch_req (cs_chan s) /\
  (ch_dirty (cs_chan s) = true -> ch_dirty (cs_chan s') = true) /\
  same_request (cs_req s') (cs_req s).
Proof.
  unfold hica_muc_chan_push.
  destruct (ch_dirty (cs_chan s)) eqn:Hd.
  { cbn. repeat split; try tauto. }
  assert (Hf : forall p : Z * chan_state,
            chan_frame (cs_chan p.2) (cs_chan s) /\
            same_request (cs_req p.2) (cs_req s) ->
            let s' := (let '(ret, s0) := p in
                       if ret =? - EINPROGRESS
                       then (ret, with_chan s0
                                    (set_ch_dirty (cs_chan s0) true))
                       else (ret, s0)).2 in
            ch_id (cs_chan s') = ch_id (cs_chan s) /\
            ch_req (cs_chan s') = ch_req (cs_chan s) /\
            (false = true -> ch_dirty (cs_chan s') = true) /\
            same_request (cs_req s') (cs_req s)).
  { intros [ret s0] ((Hi & _ & Hr) & Hq). cbn [snd] in *.
    destruct (ret =? - EINPROGRESS); cbn; repeat split;
      try tauto; try discriminate; apply Hq. }
  destruct (ch_id (cs_chan s) =? MUC_CHAN_PKG1).
  - apply Hf, push_0_frame.
  - apply Hf, push_n_frame.
Qed.

Lemma chan_put_dirty chans id j c :
  0 <= id -> 0 <= j ->
  (ch_dirty (chan_at chans id) = true -> ch_dirty c = true) ->
  ch_dirty (chan_at chans j) = true ->
  ch_dirty (chan_at (chan_put chans id c) j) = true.
Proof.
  intros Hid Hj Hc Hd.
  destruct (Z.eq_dec j id) as [-> | Hne].
  - destruct (Nat.lt_ge_cases (Z.to_nat id) (length chans)) as [Hlt | Hge].
    + rewrite chan_at_put_eq by assumption. now apply Hc.
    + unfold chan_put. rewrite list_insert_ge by exact Hge. exact Hd.
  - rewrite chan_at_put_ne by assumption. exact Hd.
Qed.

(** One round of the sweeper leaves every set flag set. *)
Lemma process_chan_dirty extra_check tfms acc id j :
  0 <= id -> 0 <= j ->
  ch_dirty (chan_at (m_chans acc.2) j) = true ->
  ch_dirty (chan_at (m_chans (process_chan extra_check tfms acc id).2) j)
  = true.
Proof.
  intros Hid Hj. destruct acc as [mask m]. cbn [snd].
  unfold process_chan.
  destruct (ch_req (chan_at (m_chans m) id)) as [| e | req] eqn:Hreq;
    try (cbn; tauto).
  intros Hd.
  pose proof (push_keeps extra_check tfms
    (mk_cs (m_regs m) (m_mem m)
           (set_ch_req (chan_at (m_chans m) id) (ReqErr (- EBUSY))) req))
    as (_ & _ & Hkeep & _).
  cbv zeta in Hkeep. cbn [cs_chan] in Hkeep.
  change (ch_dirty (set_ch_req (chan_at (m_chans m) id) (ReqErr (- EBUSY))))
    with (ch_dirty (chan_at (m_chans m) id)) in Hkeep.
  destruct (hica_muc_chan_push extra_check tfms _) as [ret s].
  cbn [snd] in Hkeep.
  destruct (ret =? - EBUSY).
  { cbn [snd m_chans]. apply chan_put_dirty; try assumption;
      try (intros H; cbn; now apply Hkeep). }
  destruct (ret =? - EINPROGRESS).
  { pose proof (emit_frame (set_ch_req (cs_chan s) (ReqPtr (cs_req s)))
                           (cs_regs s)) as (_ & He & _).
    destruct (hica_muc_chan_emit _ _) as [chan regs].
    cbn [snd m_chans fst] in *. apply chan_put_dirty; try assumption;
      try (intros H; rewrite He; cbn; now apply Hkeep). }
  pose proof (unprepare_frame tfms (negb (ret =? 0)) s) as [(_ & Hu & _) _].
  cbn [snd m_chans]. apply chan_put_dirty; try assumption;
    try (intros H; cbn; rewrite Hu; now apply Hkeep).
Qed.

Lemma process_dirty extra_check tfms m j :
  0 <= j ->
  ch_dirty (chan_at (m_chans m) j) = true ->
  ch_dirty (chan_at (m_chans (hica_muc_process extra_check tfms m).2) j)
  = true.
Proof.
  intros Hj. unfold hica_muc_process.
  assert (Hids : Forall (fun id => 0 <= id) (seqZ 0 MUC_CHAN_NUM)).
  { apply Forall_forall. intros id Hin. apply elem_of_seqZ in Hin. lia. }
  revert Hids. generalize (seqZ 0 MUC_CHAN_NUM) as ids.
  change m with (0, m).2 at 1. generalize (0, m) as acc.
  intros acc ids. revert acc.
  induction ids as [| id ids IH]; intros acc Hids Hd; [exact Hd |].
  cbn [foldl]. inversion Hids as [| ? ? Hid Hrest]; subst.
  apply IH; [exact Hrest |]. now apply process_chan_dirty.
Qed.

(** The top half's fast path for the slow channel is never taken: after
    [val |= val >> MUC_CHAN_NUM] the status cannot equal
    [MUC_INT_CHAN0_DATA_DISPOSE]. *)
Lemma handle_val_ne val :
  (Z.lor val (Z.shiftr val MUC_CHAN_NUM) =? MUC_INT_CHAN0_DATA_DISPOSE)
  = false.
Proof.
  apply Z.eqb_neq. intros H.
  assert (Hbit : forall i, 0 <= i ->
            (Z.testbit val i || Z.testbit val (i + 8)) = (i =? 8)).
  { intros i Hi. rewrite <- (testbit_BIT 8 i) by lia.
    change (BIT 8) with MUC_INT_CHAN0_DATA_DISPOSE. rewrite <- H.
    rewrite Z.lor_spec, Z.shiftr_spec by lia. reflexivity. }
  pose proof (Hbit 0 ltac:(lia)) as H0.
  pose proof (Hbit 8 ltac:(lia)) as H8.
  pose proof (Hbit 16 ltac:(lia)) as H16.
  change (0 + 8) with 8 in H0. change (8 + 8) with 16 in H8.
  change (16 + 8) with 24 in H16.
  change (0 =? 8) with false in H0. change (8 =? 8) with true in H8.
  change (16 =? 8) with false in H16.
  destruct (Z.testbit val 0), (Z.testbit val 8), (Z.testbit val 16),
    (Z.testbit val 24); discriminate.
Qed.

Lemma handle_spec extra_check tfms m :
  hica_muc_handle extra_check tfms m =
  let val := readl (m_regs m) MUC_INT_STATUS in
  if val =? 0 then (IRQ_NONE, m)
  else (IRQ_HANDLED,
        mk_machine (writel val MUC_INT_RAW (m_regs m)) (m_mem m)
          (m_no_dma m)
          (clear_dirty (Z.lor val (Z.shiftr val MUC_CHAN_NUM)) (m_chans m))
          (S (m_cond m)) (m_done m)).
Proof.
  unfold hica_muc_handle. cbv zeta.
  destruct (_ =? 0); [reflexivity |].
  now rewrite handle_val_ne.
Qed.

Lemma clear_dirty_fold val ids chans j :
  NoDup ids -> Forall (fun i => 0 <= i) ids -> 0 <= j ->
  (Z.to_nat j < length chans)%nat ->
  chan_at (foldl (fun cs id =>
                    if negb (Z.land val (BIT id) =? 0)
                    then chan_put cs id (set_ch_dirty (chan_at cs id) false)
                    else cs) chans ids) j
  = if bool_decide (j ∈ ids) && Z.testbit val j
    then set_ch_dirty (chan_at chans j) false
    else chan_at chans j.
Proof.
  intros Hnd Hpos Hj. revert chans.
  induction ids as [| i ids IH]; intros chans Hlen; cbn [foldl].
  - reflexivity.
  - inversion Hnd as [| ? ? Hni Hnd']; subst.
    inversion Hpos as [| ? ? Hi Hpos']; subst.
    rewrite land_BIT_eqb, negb_involutive by lia.
    rewrite IH by (try assumption; destruct (Z.testbit val i);
                   unfold chan_put; rewrite ?length_insert; assumption).
    destruct (decide (j = i)) as [-> | Hne].
    + rewrite (bool_decide_eq_false_2 _ Hni).
      rewrite bool_decide_eq_true_2 by apply list_elem_of_here.
      cbn [andb]. destruct (Z.testbit val i); [| reflexivity].
      now rewrite chan_at_put_eq.
    + assert (Hput : chan_at (if Z.testbit val i
                              then chan_put chans i
                                     (set_ch_dirty (chan_at chans i) false)
                              else chans) j = chan_at chans j).
      { destruct (Z.testbit val i); [| reflexivity].
        now rewrite chan_at_put_ne. }
      rewrite Hput.
      destruct (decide (j ∈ ids)) as [Hin | Hnin].
      * rewrite !bool_decide_eq_true_2;
          [reflexivity | now apply list_elem_of_further | exact Hin].
      * rewrite !bool_decide_eq_false_2; [reflexivity | | exact Hnin].
        intros Hc. apply elem_of_cons in Hc as [? | ?]; tauto.
Qed.

Lemma clear_dirty_at val chans j :
  0 <= j < 8 -> length chans = 8%nat ->
  chan_at (clear_dirty val chans) j
  = if Z.testbit val j then set_ch_dirty (chan_at chans j) false
    else chan_at chans j.
Proof.
  intros Hj Hlen. unfold clear_dirty.
  rewrite clear_dirty_fold.
  - rewrite bool_decide_eq_true_2; [reflexivity |].
    apply elem_of_seqZ. unfold MUC_CHAN_NUM. lia.
  - apply NoDup_seqZ.
  - apply Forall_forall. intros i Hi. apply elem_of_seqZ in Hi. lia.
  - lia.
  - lia.
Qed.

(** C8.  With the dirty flag set, push returns [-EBUSY] and changes
    nothing, however often it is called.  With the flag clear, push
    leaves it set exactly when it returns [-EINPROGRESS].  Emit, prepare
    and unprepare never touch the flag, a sweep of [hica_muc_process]
    never clears it, and the interrupt handler clears it for exactly the
    channels whose input or output completion bit is set in
    [MUC_INT_STATUS]. *)
Theorem dirty_flag_protocol extra_check tfms :
  (forall s, ch_dirty (cs_chan s) = true ->
     hica_muc_chan_push extra_check tfms s = (- EBUSY, s)) /\
  (forall s, ch_dirty (cs_chan s) = false ->
     let (ret, s') := hica_muc_chan_push extra_check tfms s in
     ch_dirty (cs_chan s') = true <-> ret = - EINPROGRESS) /\
  (forall chan regs,
     ch_dirty (hica_muc_chan_emit chan regs).1 = ch_dirty chan) /\
  (forall dma_map_sg s,
     ch_dirty (cs_chan (hica_muc_chan_prepare dma_map_sg tfms s).2)
     = ch_dirty (cs_chan s)) /\
  (forall no_output s,
     ch_dirty (cs_chan (hica_muc_chan_unprepare tfms no_output s))
     = ch_dirty (cs_chan s)) /\
  (forall m id, 0 <= id ->
     ch_dirty (chan_at (m_chans m) id) = true ->
     ch_dirty (chan_at (m_chans (hica_muc_process extra_check tfms m).2) id)
     = true) /\
  (forall m id, length (m_chans m) = 8%nat -> 0 <= id < 8 ->
     let val := readl (m_regs m) MUC_INT_STATUS in
     ch_dirty (chan_at (m_chans (hica_muc_handle extra_check tfms m).2) id)
     = ch_dirty (chan_at (m_chans m) id) &&
       negb (Z.testbit val id || Z.testbit val (8 + id))).
Proof.
  split; [intros s; apply push_dirty_noop |].
  split; [intros s; apply push_clean_sets |].
  split; [intros chan regs; apply emit_frame |].
  split.
  { intros dma_map_sg s.
    destruct (hica_muc_chan_prepare dma_map_sg tfms s) as [ret s'] eqn:Hp.
    apply prepare_cases in Hp as [(_ & (_ & Hd & _) & _) | (_ & -> & _)];
      [exact Hd | reflexivity]. }
  split; [intros no_output s; apply unprepare_frame |].
  split; [intros m id; apply process_dirty |].
  intros m id Hlen Hid val. rewrite handle_spec. fold val. cbv zeta.
  destruct (Z.eqb_spec val 0) as [E | E]; cbn [snd m_chans].
  - rewrite E, !Z.bits_0. cbn. now rewrite andb_true_r.
  - rewrite clear_dirty_at by assumption.
    rewrite Z.lor_spec, Z.shiftr_spec by lia.
    replace (id + MUC_CHAN_NUM) with (8 + id) by (unfold MUC_CHAN_NUM; lia).
    destruct (Z.testbit val id || Z.testbit val (8 + id)); cbn [negb].
    + cbn. now rewrite andb_false_r.
    + now rewrite andb_true_r.
Qed.

(** A dirty ring channel: push is refused, and the interrupt that
    reports its output completion clears the flag. *)
Lemma dirty_flag_protocol_witness :
  let chan := set_ch_dirty (chan_at (m_chans idle_machine) 1) true in
  let s := mk_cs ∅ ∅ chan (sample_req 1 2048) in
  let m := mk_machine (writel (BIT 9) MUC_INT_STATUS ∅) ∅ false
             (chan_put (m_chans idle_machine) 1 chan) 0 [] in
  ch_dirty (cs_chan s) = true /\
  hica_muc_chan_push false sample_tfms s = (- EBUSY, s) /\
  ch_dirty (chan_at (m_chans m) 1) = true /\
  ch_dirty (chan_at (m_chans (hica_muc_process false sample_tfms m).2) 1)
  = true /\
  ch_dirty (chan_at (m_chans (hica_muc_handle false sample_tfms m).2) 1)
  = false.
Proof.
  intros chan s m.
  pose proof (dirty_flag_protocol false sample_tfms)
    as (Hpush & _ & _ & _ & _ & Hsweep & Hirq).
  split; [reflexivity |].
  split; [apply (Hpush s); reflexivity |].
  split; [reflexivity |].
  split; [apply (Hsweep m 1); [lia | reflexivity] |].
  rewrite (Hirq m 1); [reflexivity | reflexivity | lia].
Defined.

(** ** Register sequences *)

Lemma elem_of_word_offsets len i :
  i ∈ word_offsets len <-> 0 <= i < len /\ i mod 4 = 0.
Proof.
  unfold word_offsets. rewrite list_elem_of_fmap. split.
  - intros (k & -> & Hk). apply elem_of_seq in Hk.
    split; [| rewrite Z.mul_comm; apply Z.mod_mul; lia].
    assert (Z.of_nat k < (len + 3) / 4) by lia.
    assert (Z.of_nat k <= (len + 3) / 4 - 1) by lia.
    pose proof (Z.mul_div_le (len + 3) 4 ltac:(lia)). lia.
  - intros [Hi Hm]. exists (Z.to_nat (i / 4)). split.
    + pose proof (Z.div_mod i 4 ltac:(lia)).
      rewrite Z2Nat.id by (apply Z.div_pos; lia). lia.
    + apply elem_of_seq. split; [lia |]. cbn.
      apply Z2Nat.inj_lt; [apply Z.div_pos; lia | apply Z.div_pos; lia |].
      pose proof (Z.div_mod i 4 ltac:(lia)).
      apply Z.div_lt_upper_bound; [lia |].
      pose proof (Z.mul_succ_div_gt (len + 3) 4 ltac:(lia)). lia.
Qed.

Lemma reg_words_offsets base len a :
  reg_words base len a <-> a - base ∈ word_offsets len.
Proof.
  rewrite elem_of_word_offsets. unfold reg_words. split.
  - intros (k & Hk & ->). replace (base + 4 * k - base) with (k * 4) by lia.
    rewrite Z.mod_mul by lia. lia.
  - intros [Hr Hm]. exists ((a - base) / 4).
    pose proof (Z.div_mod (a - base) 4 ltac:(lia)). lia.
Qed.

Lemma write_seq_out (f : Z -> Z) base offs regs a :
  a - base ∉ offs ->
  readl (foldl (fun r i => writel (f i) (base + i) r) regs offs) a
  = readl regs a.
Proof.
  revert regs. induction offs as [| i offs IH]; intros regs Hn; cbn [foldl];
    [reflexivity |].
  apply not_elem_of_cons in Hn as [Hne Hn].
  rewrite IH by exact Hn. apply readl_writel_ne. lia.
Qed.




Lemma setl_seq_out v base len regs a :
  ~ reg_words base len a ->
  readl (hica_setl_seq v base len regs) a = readl regs a.
Proof.
  intros H. rewrite reg_words_offsets in H. unfold hica_setl_seq.
  now apply (write_seq_out (fun _ => v)).
Qed.




(** ** Erasure *)





Lemma readl_writew_ne v a b regs :
  a <> b -> readl (writew v a regs) b = readl regs b.
Proof. intros H. unfold readl, writew. now rewrite lookup_insert_ne. Qed.








(** ** Descriptor ring builder *)








Section ListAppend.

Variables (ctx : hica_muc_tfm_ctx) (chan : hica_muc_chan).
Variables (cryptlen runlen : Z) (is_dst : bool).

Local Abbreviation entry := (list_append_buf ctx chan cryptlen runlen is_dst).
Local Abbreviation loop := (list_append_loop ctx chan cryptlen runlen is_dst).








End ListAppend.




(** ** No dummy flag *)













(** ** Ring channel push *)

Lemma readw_frame regs regs' a :
  readl regs' a = readl regs a -> readw regs' a = readw regs a.
Proof. unfold readw. now intros ->. Qed.

Lemma status_src_frame extra_check chan regs a :
  a <> MUC_CHANn_IN_EMPTY_CNT (ch_id chan) ->
  a <> MUC_CHANn_SRC_LST_ADDR (ch_id chan) ->
  a <> MUC_CHANn_IN_BUF_NUM (ch_id chan) ->
  readl (push_n_status_src extra_check chan regs) a = readl regs a.
Proof.
  intros H1 H2 H3. unfold push_n_status_src. cbv zeta.
  repeat match goal with
  | |- context [if ?c then _ else _] => destruct c
  end;
  repeat first [ rewrite readl_writel_ne by congruence
               | rewrite readl_writew_ne by congruence ];
  reflexivity.
Qed.

Lemma status_dst_frame extra_check chan regs a :
  a <> MUC_CHANn_OUT_FULL_CNT (ch_id chan) ->
  a <> MUC_CHANn_DST_LST_ADDR (ch_id chan) ->
  a <> MUC_CHANn_OUT_BUF_NUM (ch_id chan) ->
  readl (push_n_status_dst extra_check chan regs) a = readl regs a.
Proof.
  intros H1 H2 H3. unfold push_n_status_dst. cbv zeta.
  repeat match goal with
  | |- context [if ?c then _ else _] => destruct c
  end;
  repeat first [ rewrite readl_writel_ne by congruence
               | rewrite readl_writew_ne by congruence ];
  reflexivity.
Qed.

(** The ring pointers that [push_n_fill] reads are those of the register
    window it is entered with. *)
Lemma fill_src_ptr extra_check chan regs (src_todo : bool) :
  readw (if src_todo then push_n_status_src extra_check chan regs else regs)
        (MUC_CHANn_SRC_LST_PTR (ch_id chan))
  = readw regs (MUC_CHANn_SRC_LST_PTR (ch_id chan)).
Proof.
  destruct src_todo; [| reflexivity].
  apply readw_frame, status_src_frame;
    unfold MUC_CHANn_SRC_LST_PTR, MUC_CHANn_IN_EMPTY_CNT,
      MUC_CHANn_SRC_LST_ADDR, MUC_CHANn_IN_BUF_NUM; lia.
Qed.

Lemma fill_dst_ptr extra_check chan regs (src_todo dst_todo : bool) :
  readw (if dst_todo
         then push_n_status_dst extra_check chan
                (if src_todo then push_n_status_src extra_check chan regs
                 else regs)
         else if src_todo then push_n_status_src extra_check chan regs
              else regs)
        (MUC_CHANn_DST_LST_PTR (ch_id chan))
  = readw regs (MUC_CHANn_DST_LST_PTR (ch_id chan)).
Proof.
  assert (Hs : forall r, readw (if src_todo
                                then push_n_status_src extra_check chan r
                                else r)
                               (MUC_CHANn_DST_LST_PTR (ch_id chan))
                         = readw r (MUC_CHANn_DST_LST_PTR (ch_id chan))).
  { intros r. destruct src_todo; [| reflexivity].
    apply readw_frame, status_src_frame;
      unfold MUC_CHANn_DST_LST_PTR, MUC_CHANn_IN_EMPTY_CNT,
        MUC_CHANn_SRC_LST_ADDR, MUC_CHANn_IN_BUF_NUM; lia. }
  destruct dst_todo; [| apply Hs].
  rewrite <- (Hs regs).
  apply readw_frame, status_dst_frame;
    unfold MUC_CHANn_DST_LST_PTR, MUC_CHANn_OUT_FULL_CNT,
      MUC_CHANn_DST_LST_ADDR, MUC_CHANn_OUT_BUF_NUM; lia.
Qed.

(** [push_n_fill] with both ring pointers inside the ring goes on to
    "set buffers"; with the pointer of a ring it is to refill outside
    the ring it returns [-EIO]. *)
Lemma push_n_fill_in_range extra_check tfms src_todo dst_todo dst_n s :
  let chan := cs_chan s in
  let src_i := readw (cs_regs s) (MUC_CHANn_SRC_LST_PTR (ch_id chan)) in
  let dst_i := readw (cs_regs s) (MUC_CHANn_DST_LST_PTR (ch_id chan)) in
  src_i < ch_list_size chan -> dst_i < ch_list_size chan ->
  exists regs,
    push_n_fill extra_check tfms src_todo dst_todo dst_n s
    = push_n_set_buffers tfms src_todo dst_todo src_i dst_i dst_n
                         (with_regs s regs).
Proof.
  intros chan src_i dst_i Hs Hd. unfold push_n_fill. cbv zeta.
  fold chan. rewrite fill_src_ptr, fill_dst_ptr. fold src_i dst_i.
  destruct (Z.geb_spec src_i (ch_list_size chan)); [lia |].
  destruct (Z.geb_spec dst_i (ch_list_size chan)); [lia |].
  rewrite !andb_false_r. eexists. reflexivity.
Qed.





(** ** Ring pointer check *)










